(** * Expectation tracking of airflow-event-plugins

    A shallow embedding of
    [plugins/event_plugins/common/storage/event_message.py]:
    the [EventMessage] row, its validators, and the operations of
    [EventMessageCRUD] on the [event_plugins] table.

    Conventions of the embedding.
    - A Python JSON value is a [json]; Python's [None] is [JNull].
    - A time-zone aware [datetime] is a number of seconds since the epoch
      (UTC), a [Z]; a nullable [DateTime] column is an [option Z].
    - The table is the list of its rows in insertion order, with the
      counter of the autoincremented primary key.
    - A Python exception is an [Err]; a method that first raises leaves
      no new table behind (the session is rolled back by
      [provide_session]).
    - [TimeUtils().get_now()] is a reading of the process clock; every
      method that reads it takes that reading as its argument [now], and
      the clock does not advance while one method runs (the tests patch
      it to a constant).
    - A JSON column holds the value as it was given, its fields in the
      order of insertion. The database compares the column with a bound
      value by their serialised text ([==], [notin_]); the source asks for
      no sorting of the keys. Python compares two loaded values with
      [==] ([in], [not in]): the order of the keys of a dict does not
      count and [True] is equal to [1]. Numbers are integers. *)

From Stdlib Require Import ZArith List String Bool Lia.
Import ListNotations.
Open Scope string_scope.
Open Scope list_scope.
Open Scope Z_scope.

(** ** Python values stored in the JSON columns *)

#[local] Unset Elimination Schemes.
Inductive json : Type :=
| JNull
| JBool (b : bool)
| JNum (n : Z)
| JStr (s : string)
| JArr (items : list json)
| JObj (fields : list (string * json)).
#[local] Set Elimination Schemes.

(** Structural equality of two values. *)
Fixpoint json_eqb (a b : json) {struct a} : bool :=
  match a, b with
  | JNull, JNull => true
  | JBool x, JBool y => Bool.eqb x y
  | JNum x, JNum y => Z.eqb x y
  | JStr x, JStr y => String.eqb x y
  | JArr xs, JArr ys =>
      (fix items_eqb (xs ys : list json) {struct xs} : bool :=
         match xs, ys with
         | [], [] => true
         | x :: xs', y :: ys' => json_eqb x y && items_eqb xs' ys'
         | _, _ => false
         end) xs ys
  | JObj xs, JObj ys =>
      (fix fields_eqb (xs ys : list (string * json)) {struct xs} : bool :=
         match xs, ys with
         | [], [] => true
         | (k, x) :: xs', (k', y) :: ys' =>
             String.eqb k k' && json_eqb x y && fields_eqb xs' ys'
         | _, _ => false
         end) xs ys
  | _, _ => false
  end.

(** Insertion of a binding in a key-sorted field list; a binding of the
    same key is replaced, as a later key of a dict literal replaces an
    earlier one. *)
Fixpoint put_field (k : string) (v : json) (fs : list (string * json))
  : list (string * json) :=
  match fs with
  | [] => [(k, v)]
  | (k', v') :: fs' =>
      match String.compare k k' with
      | Lt => (k, v) :: fs
      | Eq => (k, v) :: fs'
      | Gt => (k', v') :: put_field k v fs'
      end
  end.

Definition sort_keys (fs : list (string * json)) : list (string * json) :=
  fold_left (fun acc kv => put_field (fst kv) (snd kv) acc) fs [].

(** The canonical form of a value: what [json.dumps(v, sort_keys=True)]
    serialises, kept as a value. *)
Fixpoint canon (j : json) : json :=
  match j with
  | JArr items => JArr (map canon items)
  | JObj fields => JObj (sort_keys (map (fun kv => (fst kv, canon (snd kv))) fields))
  | _ => j
  end.

(** Equality of two patterns as the specification has it: their
    canonical forms coincide. No method of the class computes it. *)
Definition msg_eqb (a b : json) : bool := json_eqb (canon a) (canon b).

(** Membership of a list up to that equality. *)
Definition msg_in (m : json) (l : list json) : bool := existsb (msg_eqb m) l.

(** The comparison of the database, [EventMessage.msg == value]: the two
    serialised texts are the same, that is the two values are the same
    field by field, in the same order. *)
Definition sql_eqb (a b : json) : bool := json_eqb a b.

(** [column IN (values)] of the database; [notin_] is its negation. *)
Definition sql_in (m : json) (l : list json) : bool := existsb (sql_eqb m) l.

(** What Python's [==] looks at: [True] and [False] are the numbers [1]
    and [0], and the order of the keys of a dict does not count. *)
Fixpoint py_norm (j : json) : json :=
  match j with
  | JBool b => JNum (if b then 1 else 0)
  | JArr items => JArr (map py_norm items)
  | JObj fields => JObj (sort_keys (map (fun kv => (fst kv, py_norm (snd kv))) fields))
  | _ => j
  end.

(** [a == b] of Python on two loaded values. *)
Definition py_eqb (a b : json) : bool := json_eqb (py_norm a) (py_norm b).

(** [m in l] of Python; [m not in l] is its negation. *)
Definition py_in (m : json) (l : list json) : bool := existsb (py_eqb m) l.

(** ** Exceptions *)

Inductive exn : Type :=
| KeyError (key : string)
| TypeError
| ValueError (what : string)
| PluginError.

Inductive res (A : Type) : Type :=
| OK (a : A)
| Err (e : exn).
Arguments OK {A} a.
Arguments Err {A} e.

Definition bind {A B : Type} (m : res A) (k : A -> res B) : res B :=
  match m with
  | OK a => k a
  | Err e => Err e
  end.

Notation "x <- m ;; k" := (bind m (fun x => k))
  (at level 61, m at next level, right associativity).

(** [obj[key]] on a Python value. *)
Definition getitem (obj : json) (key : string) : res json :=
  match obj with
  | JObj fields =>
      match fold_left (fun acc kv => if String.eqb (fst kv) key then Some (snd kv) else acc)
                      fields None with
      | Some v => OK v
      | None => Err (KeyError key)
      end
  | _ => Err TypeError
  end.

(** Python truth value of a JSON value. *)
Definition truthy (j : json) : bool :=
  match j with
  | JNull => false
  | JBool b => b
  | JNum n => negb (n =? 0)
  | JStr s => negb (String.eqb s "")
  | JArr items => match items with [] => false | _ => true end
  | JObj fields => match fields with [] => false | _ => true end
  end.

Definition is_None (j : json) : bool :=
  match j with JNull => true | _ => false end.

(** ** The row class [EventMessage] *)

Module EventMessage.

(** One row of the [event_plugins] table. [id] is [None] until the
    session has added the object to the table. *)
Record t : Type := mk {
  id : option Z;
  name : string;
  msg : json;
  source_type : string;
  frequency : string;
  last_receive : json;
  last_receive_time : option Z;
  timeout : Z
}.

Definition available_frequency : list string := ["D"; "M"].
Definition available_source_type : list string := ["base"; "kafka"].

Definition str_in (s : string) (l : list string) : bool :=
  existsb (String.eqb s) l.

(** [validate_frequency]: the argument is whatever Python value the
    caller passes (in the CRUD, [msg['frequency']]); a value that is not
    a string is in no list of strings. *)
Definition validate_frequency (frequency : json) : res string :=
  match frequency with
  | JStr f => if str_in f available_frequency then OK f
              else Err (ValueError "frequency")
  | _ => Err (ValueError "frequency")
  end.

Definition validate_source_type (source_type : string) : res string :=
  if str_in source_type available_source_type then OK source_type
  else Err (ValueError "source_type").

(** [__init__]: the attributes are assigned in the order of the body,
    so [source_type] is validated before [frequency]. *)
Definition init (name : string) (msg : json) (source_type : string)
    (frequency : json) (last_receive : json)
    (last_receive_time : option Z) (timeout : Z) : res t :=
  st <- validate_source_type source_type ;;
  fr <- validate_frequency frequency ;;
  OK (mk None name msg st fr last_receive last_receive_time timeout).

(** Assignments to the attributes of a loaded row. *)
Definition with_id (i : Z) (r : t) : t :=
  mk (Some i) (name r) (msg r) (source_type r) (frequency r)
     (last_receive r) (last_receive_time r) (timeout r).

Definition set_received (payload : json) (at_time : Z) (r : t) : t :=
  mk (id r) (name r) (msg r) (source_type r) (frequency r)
     payload (Some at_time) (timeout r).

Definition set_reset (new_timeout : Z) (r : t) : t :=
  mk (id r) (name r) (msg r) (source_type r) (frequency r)
     JNull None new_timeout.

End EventMessage.

(** ** The table and the session *)

Record Store : Type := mkStore {
  rows : list EventMessage.t;
  next_id : Z
}.

Definition empty_store : Store := mkStore [] 1.

(** [session.add(record)] followed by the flush of the commit. *)
Definition session_add (record : EventMessage.t) (s : Store) : Store :=
  mkStore (rows s ++ [EventMessage.with_id (next_id s) record]) (next_id s + 1).

Inductive DBStatus : Type := ALL_RECEIVED | NOT_ALL_RECEIVED.

Fixpoint mapM {A B : Type} (f : A -> res B) (l : list A) : res (list B) :=
  match l with
  | [] => OK []
  | x :: l' => y <- f x ;; ys <- mapM f l' ;; OK (y :: ys)
  end.

(** ** The class [EventMessageCRUD] *)

Module EventMessageCRUD.

Import EventMessage.

Record crud : Type := mkCrud {
  self_source_type : string;
  sensor_name : string
}.

Section Methods.

(** [factory.plugin_factory(source_type).msg_handler(msg=msg,
    mtype='wanted').timeout()]: the plug-in of a source type computes
    the deadline of a wanted message from the message and from its own
    reading of the clock. The plug-ins are not part of this file. *)
Variable plugin_timeout : string -> json -> Z -> res Z.

Variable self : crud.

(** The reading of [TimeUtils().get_now()]. *)
Variable now : Z.

Definition get_timeout (m : json) : res Z :=
  plugin_timeout (self_source_type self) m now.

Definition is_sensor (r : EventMessage.t) : bool :=
  String.eqb (name r) (sensor_name self).

Definition get_sensor_messages (s : Store) : list EventMessage.t :=
  filter is_sensor (rows s).

(** The record built in the loops of [initialize] and [update_msgs];
    the keyword arguments are evaluated before [__init__] runs. *)
Definition new_record (m : json) : res EventMessage.t :=
  fr <- getitem m "frequency" ;;
  tm <- get_timeout m ;;
  EventMessage.init (sensor_name self) m (self_source_type self) fr JNull None tm.

Fixpoint add_records (msgs : list json) (s : Store) : res Store :=
  match msgs with
  | [] => OK s
  | m :: msgs' =>
      record <- new_record m ;;
      add_records msgs' (session_add record s)
  end.

(** [del_records.delete()]: the database deletes the rows of the sensor
    whose column [msg] is [NOT IN] the values of [msg_list]. *)
Definition delete_unwanted (msg_list : list json) (s : Store) : Store :=
  mkStore (filter (fun r => negb (is_sensor r && negb (sql_in (msg r) msg_list))) (rows s))
          (next_id s).

Definition update_msgs (msg_list : list json) (s : Store) : res Store :=
  let s1 := delete_unwanted msg_list s in
  let exist_records := get_sensor_messages s1 in
  let new_msgs :=
    filter (fun m => negb (py_in m (map msg exist_records))) msg_list in
  add_records new_msgs s1.

Definition expired (base_time : Z) (r : EventMessage.t) : bool :=
  is_sensor r && (timeout r <? base_time).

Definition reset_record (base_time : Z) (r : EventMessage.t) : res EventMessage.t :=
  if expired base_time r then
    tm <- get_timeout (msg r) ;; OK (set_reset tm r)
  else OK r.

Definition reset_timeout (base_time : option Z) (s : Store) : res Store :=
  let base_time := match base_time with Some b => b | None => now end in
  rows' <- mapM (reset_record base_time) (rows s) ;;
  OK (mkStore rows' (next_id s)).

Definition initialize (msg_list : list json) (dt : option Z) (s : Store) : res Store :=
  if Nat.ltb 0 (List.length (get_sensor_messages s)) then
    let dt := match dt with Some d => d | None => now end in
    s1 <- update_msgs msg_list s ;;
    reset_timeout (Some dt) s1
  else
    add_records msg_list s.

Definition unset (r : EventMessage.t) : bool :=
  is_None (last_receive r)
  || match last_receive_time r with None => true | Some _ => false end.

Fixpoint status_loop (records : list EventMessage.t) : DBStatus :=
  match records with
  | [] => ALL_RECEIVED
  | r :: records' =>
      if unset r then NOT_ALL_RECEIVED else status_loop records'
  end.

Definition status (s : Store) : DBStatus :=
  status_loop (get_sensor_messages s).

Definition unreceived (r : EventMessage.t) : bool :=
  is_None (last_receive r)
  && match last_receive_time r with None => true | Some _ => false end.

Definition get_unreceived_msgs (s : Store) : list json :=
  map msg (filter unreceived (get_sensor_messages s)).

Definition have_successed_msgs (received_msgs : list json) (s : Store) : list json :=
  let successed_msgs :=
    map msg (filter (fun r => match last_receive_time r with
                              | Some t => t <? timeout r
                              | None => false
                              end) (get_sensor_messages s)) in
  filter (fun m => negb (py_in m received_msgs)) successed_msgs.

Definition matches (match_wanted : json) (r : EventMessage.t) : bool :=
  is_sensor r && sql_eqb (msg r) match_wanted.

Definition update_on_receive (match_wanted receive_msg : json) (s : Store) : Store :=
  mkStore (map (fun r => if matches match_wanted r
                         then set_received receive_msg now r else r) (rows s))
          (next_id s).

Definition delete (s : Store) : Store :=
  mkStore (filter (fun r => negb (is_sensor r)) (rows s)) (next_id s).

(** A row as [initialize] and [update_msgs] create it, and as
    [reset_timeout] leaves it: nothing received, and the deadline the
    plug-in gives for its message at the clock reading [now]. *)
Definition fresh (r : EventMessage.t) : Prop :=
  last_receive r = JNull /\ last_receive_time r = None
  /\ get_timeout (msg r) = OK (timeout r).

End Methods.

End EventMessageCRUD.

(** ** The timeout plug-in *)

Module Calendar.

Definition seconds_per_day : Z := 86400.

Definition is_leap (y : Z) : bool :=
  (y mod 4 =? 0) && (negb (y mod 100 =? 0) || (y mod 400 =? 0)).

Definition days_in_month (y m : Z) : Z :=
  if m =? 2 then (if is_leap y then 29 else 28)
  else if (m =? 4) || (m =? 6) || (m =? 9) || (m =? 11) then 30
  else 31.

(** Days between a day and the last day of its month; the day is given
    as its distance [n] from the first day of month [m] of year [y]. *)
Fixpoint days_left_in_month (fuel : nat) (y m n : Z) : Z :=
  match fuel with
  | O => 0
  | S fuel' =>
      let len := days_in_month y m in
      if n <? len then len - 1 - n
      else if m =? 12 then days_left_in_month fuel' (y + 1) 1 (n - len)
      else days_left_in_month fuel' y (m + 1) (n - len)
  end.

(** 23:59:59 of the day of [now]. *)
Definition end_of_day (now : Z) : Z :=
  (now / seconds_per_day) * seconds_per_day + (seconds_per_day - 1).

(** 23:59:59 of the last day of the month of [now]. The calendar
    repeats every 146097 days, so the position in the month is read in
    the 400 years that start on 1970-01-01. *)
Definition end_of_month (now : Z) : Z :=
  let d := now / seconds_per_day in
  (d + days_left_in_month 4801 1970 1 (d mod 146097)) * seconds_per_day
  + (seconds_per_day - 1).

(** Modelled from the spec: the plug-in classes reached through
    [factory.plugin_factory] (the handlers of the [base] and [kafka]
    sources) are missing. Section 6 of the specification gives their
    built-in behaviours: a daily pattern expires at the end of the
    current calendar day (23:59:59), a monthly pattern at the end of the
    current calendar month, the current time being the plug-in's own
    reading of the clock. Times are in UTC; a pattern with another
    frequency has no deadline. *)
Definition timeout (source_type : string) (m : json) (now : Z) : res Z :=
  fr <- getitem m "frequency" ;;
  match fr with
  | JStr f =>
      if String.eqb f "D" then OK (end_of_day now)
      else if String.eqb f "M" then OK (end_of_month now)
      else Err PluginError
  | _ => Err PluginError
  end.

(** Modelled from the spec: section 6 takes the end of the day and of the
    month in the watcher's configured time zone. [utc_offset] is that
    zone as a fixed number of seconds east of UTC; [timeout] above is the
    zone of offset [0]. *)
Definition end_of_day_at (utc_offset now : Z) : Z :=
  end_of_day (now + utc_offset) - utc_offset.

Definition end_of_month_at (utc_offset now : Z) : Z :=
  end_of_month (now + utc_offset) - utc_offset.

Definition timeout_at (utc_offset : Z) (source_type : string) (m : json) (now : Z) : res Z :=
  fr <- getitem m "frequency" ;;
  match fr with
  | JStr f =>
      if String.eqb f "D" then OK (end_of_day_at utc_offset now)
      else if String.eqb f "M" then OK (end_of_month_at utc_offset now)
      else Err PluginError
  | _ => Err PluginError
  end.

(** [now] is the last second of the window of the pattern: 23:59:59 of
    the day for a daily pattern, 23:59:59 of the last day of the month
    for a monthly one, in the zone of the watcher. *)
Definition window_end (utc_offset : Z) (m : json) (now : Z) : bool :=
  match getitem m "frequency" with
  | OK (JStr f) =>
      ((now + utc_offset) mod seconds_per_day =? seconds_per_day - 1)
      && (String.eqb f "D"
          || (days_left_in_month 4801 1970 1
                (((now + utc_offset) / seconds_per_day) mod 146097) =? 0))
  | _ => false
  end.

End Calendar.

(** * Statements *)

Section Statements.

Import EventMessage EventMessageCRUD.

(** The validated sets, as propositions. *)
Definition valid_frequency (fr : json) : Prop := fr = JStr "D" \/ fr = JStr "M".

Definition valid_source_type (st : string) : Prop := st = "base" \/ st = "kafka".

(** The two received columns of a row are set together or unset together. *)
Definition paired (r : EventMessage.t) : Prop :=
  is_None (last_receive r) = true <-> last_receive_time r = None.

(** The rows of the other sensors, in the order of the table. *)
Definition others (self : crud) (s : Store) : list EventMessage.t :=
  filter (fun r => negb (is_sensor self r)) (rows s).

(** The patterns that have a row for the sensor. *)
Definition sensor_msgs (self : crud) (s : Store) : list json :=
  map msg (get_sensor_messages self s).

(** Stated from the specification (section 4.3), for the comparison with
    [update_on_receive]: [recordArrival(watcherName, matchedPattern,
    payload, now)] sets the payload and the caller's [now] on every row
    of the watcher whose pattern equals the matched one. *)
Definition recordArrival (watcherName : string) (matchedPattern payload : json)
    (now : Z) (s : Store) : Store :=
  mkStore (map (fun r => if String.eqb (name r) watcherName
                            && msg_eqb (msg r) matchedPattern
                         then set_received payload now r else r) (rows s))
          (next_id s).

(** A pattern that carries a frequency of the validated set. *)
Definition well_formed (m : json) : Prop :=
  exists fr, getitem m "frequency" = OK fr /\ valid_frequency fr.

End Statements.

(** * The rest of the class *)

(** ** [tabulate_data] *)

Module Tabulate.

Import EventMessage EventMessageCRUD.

(** [str(c).split('.')[1]] for the columns of the table, in the order of
    their declaration. *)
Definition headers : list string :=
  ["id"; "name"; "msg"; "source_type"; "frequency";
   "last_receive"; "last_receive_time"; "timeout"].

(** The slice [s[:n]] of Python: the first [n] characters, or all but the
    last [-n] when [n] is negative. *)
Definition slice_to (s : string) (n : Z) : string :=
  if 0 <=? n then substring 0 (Z.to_nat n) s
  else substring 0 (String.length s - Z.to_nat (- n)) s.

(** The cell appended for one attribute: [threshold] is tested for truth
    ([None] and [0] are false), then the length is compared with it. *)
Definition cell (threshold : option Z) (str_val : string) : string :=
  match threshold with
  | None => str_val
  | Some t =>
      if t =? 0 then str_val
      else if Z.of_nat (String.length str_val) <=? t then str_val
      else String.append (slice_to str_val t) "..."
  end.

Section Data.

(** [str(getattr(r, col))]: the printing of Python values is not part of
    this file. *)
Variable str_attr : EventMessage.t -> string -> string.

(** [tabulate(data, headers=headers, tablefmt=tablefmt)] of the
    [tabulate] package. *)
Variable tabulate : list (list string) -> list string -> string -> string.

(** The list [data] built by the two loops. *)
Definition data (self : crud) (threshold : option Z) (s : Store) : list (list string) :=
  map (fun r => map (fun col => cell threshold (str_attr r col)) headers)
      (get_sensor_messages self s).

Definition tabulate_data (self : crud) (threshold : option Z) (tablefmt : string)
    (s : Store) : string :=
  tabulate (data self threshold s) headers tablefmt.

End Data.

End Tabulate.

(** ** Predicates on tables *)

(** No two patterns of the list are equal for Python's [==]. *)
Fixpoint distinct_msgs (l : list json) : bool :=
  match l with
  | [] => true
  | m :: l' => negb (py_in m l') && distinct_msgs l'
  end.

(** The columns that [__init__] validates are of the validated sets, and
    the frequency column is the frequency of the pattern. *)
Definition row_ok (r : EventMessage.t) : Prop :=
  valid_source_type (EventMessage.source_type r)
  /\ valid_frequency (JStr (EventMessage.frequency r))
  /\ getitem (EventMessage.msg r) "frequency" = OK (JStr (EventMessage.frequency r)).

(** The rows that [have_successed_msgs] selects. *)
Definition successed (r : EventMessage.t) : bool :=
  match EventMessage.last_receive_time r with
  | Some t => t <? EventMessage.timeout r
  | None => false
  end.

(** * Rows and clock readings of the test suite *)

Module Fixtures.

Import EventMessage.

(** Times of [test_event_message.py], read in UTC. *)
Definition t_0613 : Z := 1560384000.          (* 2019-06-13 00:00:00 *)
Definition t_0614_end : Z := 1560556799.      (* 2019-06-14 23:59:59 *)
Definition t_0615 : Z := 1560556800.          (* 2019-06-15 00:00:00 *)
Definition t_0615_13h : Z := 1560603600.      (* 2019-06-15 13:00:00 *)
Definition t_0615_14h : Z := 1560607200.      (* 2019-06-15 14:00:00 *)
Definition t_0615_end : Z := 1560643199.      (* 2019-06-15 23:59:59 *)
Definition t_0616 : Z := 1560643200.          (* 2019-06-16 00:00:00 *)
Definition t_0616_end : Z := 1560729599.      (* 2019-06-16 23:59:59 *)
Definition t_0630_end : Z := 1561939199.      (* 2019-06-30 23:59:59 *)

Definition db : EventMessageCRUD.crud := EventMessageCRUD.mkCrud "kafka" "test".
Definition other_db : EventMessageCRUD.crud := EventMessageCRUD.mkCrud "kafka" "other".

Definition msg_daily : json :=
  JObj [("test_memo", JStr "received"); ("frequency", JStr "D"); ("topic", JStr "etl-finish")].
Definition msg_monthly : json :=
  JObj [("test_memo", JStr "not_received"); ("frequency", JStr "M"); ("topic", JStr "etl-finish")].
(** [msg_monthly] with its fields in another order. *)
Definition msg_monthly' : json :=
  JObj [("topic", JStr "etl-finish"); ("frequency", JStr "M"); ("test_memo", JStr "not_received")].
Definition msg_job : json :=
  JObj [("frequency", JStr "D"); ("topic", JStr "job-finish"); ("job_name", JStr "jn1")].
Definition msg_invalid : json :=
  JObj [("frequency", JStr "not_valid"); ("topic", JStr "etl-finish")].

Definition payload1 : json := JObj [("test", JNum 1)].

(** A daily row received on 2019-06-15. *)
Definition record_received : EventMessage.t :=
  mk (Some 1) "test" msg_daily "kafka" "D" payload1 (Some t_0615) t_0615_end.
(** A monthly row that waits. *)
Definition record_waiting : EventMessage.t :=
  mk (Some 2) "test" msg_monthly "kafka" "M" JNull None t_0630_end.
(** The monthly row of [test_status] after the test has assigned
    [last_receive_time] alone. *)
Definition record_half : EventMessage.t :=
  mk (Some 2) "test" msg_monthly "kafka" "M" JNull (Some t_0613) t_0630_end.
(** The monthly row of [test_status] with the payload [0]. *)
Definition record_zero : EventMessage.t :=
  mk (Some 2) "test" msg_monthly "kafka" "M" (JNum 0) (Some t_0613) t_0630_end.
(** A daily row of 2019-06-14, received that day. *)
Definition record_stale : EventMessage.t :=
  mk (Some 1) "test" msg_daily "kafka" "D" payload1 (Some t_0613) t_0614_end.
(** A row of another sensor. *)
Definition record_other : EventMessage.t :=
  mk (Some 3) "other" msg_daily "kafka" "D" payload1 (Some t_0613) t_0614_end.

(** The table of [test_status] after the assignment of the receive time. *)
Definition table_half : Store := mkStore [record_received; record_half] 3.
(** The table of [test_update_on_receive], with a row of another sensor. *)
Definition table_waiting : Store := mkStore [record_waiting; record_other] 4.
(** A table with an expired daily row and a monthly row that is not due. *)
Definition table_stale : Store := mkStore [record_stale; record_zero; record_other] 4.

(** The expired daily row after [reset_timeout] at 14:00 of 2019-06-15. *)
Definition record_stale_reset : EventMessage.t :=
  mk (Some 1) "test" msg_daily "kafka" "D" JNull None t_0615_end.
Definition table_reset : Store :=
  mkStore [record_stale_reset; record_zero; record_other] 4.
(** [table_stale] after [initialize] with [wanted] on 2019-06-16: the
    monthly row, whose pattern is spelled in another order than in
    [wanted], is deleted and created again. *)
Definition wanted : list json := [msg_monthly'; msg_job].
Definition record_monthly_new : EventMessage.t :=
  mk (Some 4) "test" msg_monthly' "kafka" "M" JNull None t_0630_end.
Definition record_job : EventMessage.t :=
  mk (Some 5) "test" msg_job "kafka" "D" JNull None t_0616_end.
Definition table_synced : Store :=
  mkStore [record_other; record_monthly_new; record_job] 6.
(** [table_stale] after [initialize] with [wanted_same], where the
    monthly pattern is spelled as in its row: the row is kept. *)
Definition wanted_same : list json := [msg_monthly; msg_job].
Definition record_job_4 : EventMessage.t :=
  mk (Some 4) "test" msg_job "kafka" "D" JNull None t_0616_end.
Definition table_kept : Store :=
  mkStore [record_zero; record_other; record_job_4] 5.
(** Two patterns that differ by [1] and [True], and a table with a row
    for the first. *)
Definition msg_flag_one : json := JObj [("frequency", JStr "D"); ("flag", JNum 1)].
Definition msg_flag_true : json := JObj [("frequency", JStr "D"); ("flag", JBool true)].

End Fixtures.

(** * Properties *)

(** ** Equality of patterns *)

Lemma json_eqb_eq : forall a b, json_eqb a b = true -> a = b.
Proof.
  fix IH 1. intros a b.
  destruct a; destruct b; simpl; try discriminate; intro H.
  - reflexivity.
  - apply Bool.eqb_prop in H. now subst.
  - apply Z.eqb_eq in H. now subst.
  - apply String.eqb_eq in H. now subst.
  - f_equal. revert items0 H. generalize items. fix IHl 1.
    intros [|x xs] [|y ys] H; try discriminate; try reflexivity.
    apply andb_true_iff in H as [H1 H2].
    f_equal; [apply IH; exact H1 | apply IHl; exact H2].
  - f_equal. revert fields0 H. generalize fields. fix IHl 1.
    intros [|[k x] xs] [|[k' y] ys] H; try discriminate; try reflexivity.
    apply andb_true_iff in H as [H12 H3].
    apply andb_true_iff in H12 as [H1 H2].
    apply String.eqb_eq in H1. subst k'.
    f_equal; [f_equal; apply IH; exact H2 | apply IHl; exact H3].
Qed.

Lemma json_eqb_refl : forall a, json_eqb a a = true.
Proof.
  fix IH 1. intros a. destruct a; simpl.
  - reflexivity.
  - apply Bool.eqb_reflx.
  - apply Z.eqb_refl.
  - apply String.eqb_refl.
  - generalize items. fix IHl 1. intros [|x xs]; [reflexivity|].
    now rewrite IH, IHl.
  - generalize fields. fix IHl 1. intros [|[k x] xs]; [reflexivity|].
    now rewrite String.eqb_refl, IH, IHl.
Qed.

Lemma msg_eqb_canon (a b : json) : msg_eqb a b = true <-> canon a = canon b.
Proof.
  unfold msg_eqb. split; [apply json_eqb_eq|].
  intros ->. apply json_eqb_refl.
Qed.

Lemma msg_eqb_refl (a : json) : msg_eqb a a = true.
Proof. now apply msg_eqb_canon. Qed.

Lemma msg_eqb_sym (a b : json) : msg_eqb a b = true -> msg_eqb b a = true.
Proof. rewrite !msg_eqb_canon. congruence. Qed.

Lemma msg_eqb_trans (a b c : json) :
  msg_eqb a b = true -> msg_eqb b c = true -> msg_eqb a c = true.
Proof. rewrite !msg_eqb_canon. congruence. Qed.

Lemma msg_in_iff (m : json) (l : list json) :
  msg_in m l = true <-> exists p, In p l /\ msg_eqb m p = true.
Proof. unfold msg_in. apply existsb_exists. Qed.

(** ** The comparisons of the database and of Python *)

Lemma sql_eqb_iff (a b : json) : sql_eqb a b = true <-> a = b.
Proof.
  unfold sql_eqb. split; [apply json_eqb_eq|]. intros ->. apply json_eqb_refl.
Qed.

Lemma sql_eqb_false (a b : json) : sql_eqb a b = false <-> a <> b.
Proof.
  split.
  - intros H E. apply sql_eqb_iff in E. congruence.
  - intro H. destruct (sql_eqb a b) eqn:E; [|reflexivity].
    apply sql_eqb_iff in E. contradiction.
Qed.

Lemma sql_in_iff (m : json) (l : list json) : sql_in m l = true <-> In m l.
Proof.
  unfold sql_in. rewrite existsb_exists. split.
  - intros (p & Hp & E). apply sql_eqb_iff in E. now subst.
  - intro H. exists m. split; [exact H|]. now apply sql_eqb_iff.
Qed.

Lemma py_eqb_norm (a b : json) : py_eqb a b = true <-> py_norm a = py_norm b.
Proof.
  unfold py_eqb. split; [apply json_eqb_eq|]. intros ->. apply json_eqb_refl.
Qed.

Lemma py_eqb_refl (a : json) : py_eqb a a = true.
Proof. now apply py_eqb_norm. Qed.

Lemma py_eqb_sym (a b : json) : py_eqb a b = true -> py_eqb b a = true.
Proof. rewrite !py_eqb_norm. congruence. Qed.

Lemma py_eqb_trans (a b c : json) :
  py_eqb a b = true -> py_eqb b c = true -> py_eqb a c = true.
Proof. rewrite !py_eqb_norm. congruence. Qed.

Lemma py_in_iff (m : json) (l : list json) :
  py_in m l = true <-> exists p, In p l /\ py_eqb m p = true.
Proof. unfold py_in. apply existsb_exists. Qed.

Lemma py_in_self (m : json) (l : list json) : In m l -> py_in m l = true.
Proof.
  intro H. apply py_in_iff. exists m. split; [exact H|apply py_eqb_refl].
Qed.

Lemma py_in_eqb (m p : json) (l : list json) :
  py_eqb m p = true -> py_in p l = true -> py_in m l = true.
Proof.
  intros Hmp Hp. apply py_in_iff in Hp as (q & Hq & Hpq).
  apply py_in_iff. exists q. split; [exact Hq|]. eapply py_eqb_trans; eauto.
Qed.

Lemma py_in_app (m : json) (l1 l2 : list json) :
  py_in m (l1 ++ l2) = py_in m l1 || py_in m l2.
Proof. unfold py_in. apply existsb_app. Qed.

(** ** Lists and results *)

Lemma mapM_Forall2 {A B : Type} (f : A -> res B) (l : list A) (l' : list B) :
  mapM f l = OK l' <-> Forall2 (fun x y => f x = OK y) l l'.
Proof.
  revert l'. induction l as [|x l IH]; intros l'; simpl.
  - split; intro H; [injection H as <-; constructor | inversion H; reflexivity].
  - split; intro H.
    + destruct (f x) as [y|] eqn:Ex; simpl in H; [|discriminate].
      destruct (mapM f l) as [ys|] eqn:El; simpl in H; [|discriminate].
      injection H as <-. constructor; [exact Ex | now apply IH].
    + inversion H as [|x0 y l0 ys Hx Hl]; subst.
      apply IH in Hl. now rewrite Hx, Hl.
Qed.

Lemma filter_all {A : Type} (f : A -> bool) (l : list A) :
  (forall x, In x l -> f x = true) -> filter f l = l.
Proof.
  induction l as [|x l IH]; intros H; simpl; [reflexivity|].
  rewrite (H x (or_introl eq_refl)). f_equal. apply IH.
  intros y Hy. apply H. now right.
Qed.

Lemma filter_none {A : Type} (f : A -> bool) (l : list A) :
  (forall x, In x l -> f x = false) -> filter f l = [].
Proof.
  induction l as [|x l IH]; intros H; simpl; [reflexivity|].
  rewrite (H x (or_introl eq_refl)). apply IH.
  intros y Hy. apply H. now right.
Qed.


Lemma length_filter_zero {A : Type} (f : A -> bool) (l : list A) :
  Nat.ltb 0 (List.length (filter f l)) = false ->
  forall x, In x l -> f x = false.
Proof.
  intros H x Hx. destruct (f x) eqn:E; [|reflexivity].
  assert (Hin : In x (filter f l)) by (apply filter_In; auto).
  destruct (filter f l); [contradiction|discriminate].
Qed.

(** ** The methods, one by one *)

Section MethodFacts.

Import EventMessage EventMessageCRUD.

Variable plugin_timeout : string -> json -> Z -> res Z.
Variable self : crud.
Variable now : Z.

#[local] Abbreviation get_timeout := (get_timeout plugin_timeout self now).
#[local] Abbreviation new_record := (new_record plugin_timeout self now).
#[local] Abbreviation add_records := (add_records plugin_timeout self now).
#[local] Abbreviation update_msgs := (update_msgs plugin_timeout self now).
#[local] Abbreviation reset_record := (reset_record plugin_timeout self now).
#[local] Abbreviation reset_timeout := (reset_timeout plugin_timeout self now).
#[local] Abbreviation initialize := (initialize plugin_timeout self now).
#[local] Abbreviation is_sensor := (is_sensor self).
#[local] Abbreviation fresh := (fresh plugin_timeout self now).

Lemma new_record_ok (m : json) (r : EventMessage.t) :
  new_record m = OK r ->
  name r = sensor_name self /\ msg r = m /\ fresh r.
Proof.
  unfold EventMessageCRUD.new_record, init, EventMessageCRUD.fresh. intro H.
  destruct (getitem m "frequency") as [fr|]; simpl in H; [|discriminate].
  destruct (get_timeout m) as [tm|] eqn:Et; simpl in H; [|discriminate].
  destruct (validate_source_type _); simpl in H; [|discriminate].
  destruct (validate_frequency fr); simpl in H; [|discriminate].
  injection H as <-. simpl. auto.
Qed.

Lemma add_records_ok (msgs : list json) (s s' : Store) :
  add_records msgs s = OK s' ->
  exists news,
    rows s' = rows s ++ news
    /\ map msg news = msgs
    /\ Forall (fun r => is_sensor r = true /\ fresh r) news.
Proof.
  revert s. induction msgs as [|m msgs IH]; intros s H; simpl in H.
  - injection H as <-. exists []. rewrite app_nil_r. auto.
  - destruct (new_record m) as [record|] eqn:Er; simpl in H; [|discriminate].
    apply new_record_ok in Er as (Hn & Hm & Hf).
    apply IH in H as (news & Hrows & Hmsgs & Hall).
    exists (with_id (next_id s) record :: news). simpl in Hrows.
    rewrite <- app_assoc in Hrows. simpl in Hrows.
    split; [exact Hrows|]. split; [simpl; now rewrite Hm, Hmsgs|].
    constructor; [|exact Hall]. split.
    + unfold EventMessageCRUD.is_sensor. simpl. rewrite Hn. apply String.eqb_refl.
    + exact Hf.
Qed.

Lemma reset_record_ok (base : Z) (r r' : EventMessage.t) :
  reset_record base r = OK r' ->
  (expired self base r = false /\ r' = r)
  \/ (expired self base r = true
      /\ exists tm, get_timeout (msg r) = OK tm /\ r' = set_reset tm r).
Proof.
  unfold EventMessageCRUD.reset_record. destruct (expired self base r).
  - destruct (get_timeout (msg r)) as [tm|]; simpl; [|discriminate].
    intro H. injection H as <-. right. eauto.
  - intro H. injection H as <-. left. auto.
Qed.

Lemma reset_record_keeps (base : Z) (r r' : EventMessage.t) :
  reset_record base r = OK r' ->
  id r' = id r /\ name r' = name r /\ msg r' = msg r.
Proof.
  intro H. apply reset_record_ok in H as [[_ ->]|[_ (tm & _ & ->)]]; auto.
Qed.

Lemma reset_timeout_rows (base : option Z) (s s' : Store) :
  reset_timeout base s = OK s' ->
  Forall2 (fun r r' => reset_record (match base with Some b => b | None => now end) r = OK r')
          (rows s) (rows s')
  /\ next_id s' = next_id s.
Proof.
  unfold EventMessageCRUD.reset_timeout. intro H.
  destruct (mapM _ (rows s)) as [rows'|] eqn:E; simpl in H; [|discriminate].
  injection H as <-. simpl. split; [|reflexivity]. now apply mapM_Forall2.
Qed.

End MethodFacts.

(** ** Validation of a new row *)

Lemma validate_frequency_ok (fr : json) :
  valid_frequency fr -> exists f, fr = JStr f /\ EventMessage.validate_frequency fr = OK f.
Proof. intros [-> | ->]; eexists; split; reflexivity. Qed.

Lemma validate_frequency_err (fr : json) :
  ~ valid_frequency fr ->
  EventMessage.validate_frequency fr = Err (ValueError "frequency").
Proof.
  unfold valid_frequency, EventMessage.validate_frequency. intro H.
  destruct fr; try reflexivity.
  destruct (EventMessage.str_in s EventMessage.available_frequency) eqn:E; [|reflexivity].
  exfalso. apply H. unfold EventMessage.str_in in E. simpl in E.
  rewrite !orb_true_iff in E. destruct E as [E|[E|E]]; [| |discriminate];
    apply String.eqb_eq in E; subst; auto.
Qed.

Lemma validate_source_type_ok (st : string) :
  valid_source_type st -> EventMessage.validate_source_type st = OK st.
Proof. intros [-> | ->]; reflexivity. Qed.

Lemma validate_source_type_err (st : string) :
  ~ valid_source_type st ->
  EventMessage.validate_source_type st = Err (ValueError "source_type").
Proof.
  unfold valid_source_type, EventMessage.validate_source_type. intro H.
  destruct (EventMessage.str_in st EventMessage.available_source_type) eqn:E; [|reflexivity].
  exfalso. apply H. unfold EventMessage.str_in in E. simpl in E.
  rewrite !orb_true_iff in E. destruct E as [E|[E|E]]; [| |discriminate];
    apply String.eqb_eq in E; subst; auto.
Qed.

Lemma new_record_invalid plugin_timeout self now (m fr : json) :
  getitem m "frequency" = OK fr ->
  ~ valid_frequency fr \/ ~ valid_source_type (EventMessageCRUD.self_source_type self) ->
  exists e, EventMessageCRUD.new_record plugin_timeout self now m = Err e.
Proof.
  intros Hg Hbad. unfold EventMessageCRUD.new_record. rewrite Hg. simpl.
  destruct (EventMessageCRUD.get_timeout _ _ _ m) as [tm|e]; simpl; [|eauto].
  unfold EventMessage.init.
  destruct (EventMessage.validate_source_type _) as [st|e] eqn:Es; simpl; [|eauto].
  destruct Hbad as [Hf|Hs].
  - rewrite (validate_frequency_err _ Hf). simpl. eauto.
  - rewrite (validate_source_type_err _ Hs) in Es. discriminate.
Qed.

(** C7. Constructing an [EventMessage] with a frequency outside ['D'],
    ['M'], or with a source type outside ['base'], ['kafka'], raises the
    [ValueError] of the validator; with both inside, the row is built.
    The error comes before anything is stored: a loop of insertions that
    meets such a message ends in the error and yields no table. *)
Theorem validation_at_construction :
  (forall name m st fr lr lrt tm,
      valid_source_type st -> valid_frequency fr ->
      exists f, fr = JStr f
        /\ EventMessage.init name m st fr lr lrt tm
           = OK (EventMessage.mk None name m st f lr lrt tm))
  /\ (forall name m st fr lr lrt tm,
      ~ valid_source_type st \/ ~ valid_frequency fr ->
      exists what, EventMessage.init name m st fr lr lrt tm = Err (ValueError what))
  /\ (forall plugin_timeout self now before m after fr s,
      getitem m "frequency" = OK fr ->
      ~ valid_frequency fr \/ ~ valid_source_type (EventMessageCRUD.self_source_type self) ->
      exists e, EventMessageCRUD.add_records plugin_timeout self now
                  (before ++ m :: after) s = Err e).
Proof.
  split; [|split].
  - intros name m st fr lr lrt tm Hs Hf. unfold EventMessage.init.
    rewrite (validate_source_type_ok _ Hs). simpl.
    destruct (validate_frequency_ok _ Hf) as (f & -> & E).
    exists f. split; [reflexivity|]. now rewrite E.
  - intros name m st fr lr lrt tm H. unfold EventMessage.init.
    destruct (EventMessage.validate_source_type st) as [st'|e] eqn:Es; simpl.
    + destruct H as [Hs|Hf].
      * rewrite (validate_source_type_err _ Hs) in Es. discriminate.
      * rewrite (validate_frequency_err _ Hf). simpl. eauto.
    + unfold EventMessage.validate_source_type in Es.
      destruct (EventMessage.str_in _ _); [discriminate|].
      injection Es as <-. eauto.
  - intros plugin_timeout self now before m after fr s Hg Hbad. revert s.
    induction before as [|b before IH]; intros s; simpl.
    + destruct (new_record_invalid plugin_timeout self now m fr Hg) as [e He].
      { tauto. }
      rewrite He. simpl. eauto.
    + destruct (EventMessageCRUD.new_record _ _ _ b) as [record|e]; simpl; [apply IH|eauto].
Qed.

(** ** Status and queries *)

Section Queries.

Import EventMessage EventMessageCRUD.

Lemma status_loop_all (records : list EventMessage.t) :
  status_loop records = ALL_RECEIVED <-> forall r, In r records -> unset r = false.
Proof.
  induction records as [|r records IH]; simpl.
  - split; [intros _ r []|reflexivity].
  - destruct (unset r) eqn:E.
    + split; [discriminate|]. intro H. specialize (H r (or_introl eq_refl)). congruence.
    + rewrite IH. split.
      * intros H x [<-|Hx]; auto.
      * intros H x Hx. apply H. now right.
Qed.

Lemma unreceived_unset (r : EventMessage.t) : unreceived r = true -> unset r = true.
Proof.
  unfold unreceived, unset. intro H. apply andb_true_iff in H as [-> _]. reflexivity.
Qed.

Lemma paired_unset (r : EventMessage.t) : paired r -> unset r = unreceived r.
Proof.
  unfold paired, unset, unreceived. intros [H1 H2].
  destruct (is_None (last_receive r)) eqn:E1; destruct (last_receive_time r) eqn:E2;
    simpl; try reflexivity.
  - specialize (H1 eq_refl). discriminate.
  - specialize (H2 eq_refl). discriminate.
Qed.

Lemma map_filter_nil {A B : Type} (g : A -> B) (f : A -> bool) (l : list A) :
  map g (filter f l) = [] <-> forall x, In x l -> f x = false.
Proof.
  induction l as [|x l IH]; simpl.
  - split; [intros _ y []|reflexivity].
  - destruct (f x) eqn:E; simpl.
    + split; [discriminate|]. intro H. specialize (H x (or_introl eq_refl)). congruence.
    + rewrite IH. split.
      * intros H y [<-|Hy]; auto.
      * intros H y Hy. apply H. now right.
Qed.

(** The status is [ALL_RECEIVED] only if no message is unreceived; this
    direction needs nothing of the rows. *)
Lemma all_received_none_unreceived (self : crud) (s : Store) :
  status self s = ALL_RECEIVED -> get_unreceived_msgs self s = [].
Proof.
  unfold status, get_unreceived_msgs. rewrite status_loop_all, map_filter_nil.
  intros H r Hr. specialize (H r Hr).
  destruct (unreceived r) eqn:E; [|reflexivity].
  apply unreceived_unset in E. congruence.
Qed.

(** C4, as the code has it. When the two received columns of every row
    of the sensor are set together or unset together, [status] is
    [ALL_RECEIVED] exactly when [get_unreceived_msgs] is empty; a sensor
    without rows is [ALL_RECEIVED] and has no unreceived message. *)
Theorem status_iff_none_unreceived (self : crud) (s : Store) :
  (forall r, In r (get_sensor_messages self s) -> paired r) ->
  (status self s = ALL_RECEIVED <-> get_unreceived_msgs self s = [])
  /\ (get_sensor_messages self s = [] ->
      status self s = ALL_RECEIVED /\ get_unreceived_msgs self s = []).
Proof.
  intro Hp. split.
  - split; [apply all_received_none_unreceived|].
    unfold status, get_unreceived_msgs. rewrite status_loop_all, map_filter_nil.
    intros H r Hr. rewrite (paired_unset r (Hp r Hr)). now apply H.
  - unfold status, get_unreceived_msgs. intros ->. split; reflexivity.
Qed.

(** C4, as stated, fails on the table of [test_status]: the second row
    has a receive time and no payload, the status is [NOT_ALL_RECEIVED]
    and no message is unreceived. *)
Lemma status_half_set_row :
  status Fixtures.db Fixtures.table_half = NOT_ALL_RECEIVED
  /\ get_unreceived_msgs Fixtures.db Fixtures.table_half = []
  /\ ~ (forall self s, status self s = ALL_RECEIVED <-> get_unreceived_msgs self s = []).
Proof.
  split; [reflexivity|]. split; [reflexivity|].
  intro H. specialize (H Fixtures.db Fixtures.table_half).
  destruct H as [_ H]. specialize (H eq_refl). discriminate.
Qed.

(** C9. A row whose payload is not [None] but false as a Python truth
    value (zero, the empty string, an empty list or dict, [False]) and
    whose receive time is set counts as received: present or absent, the
    status is the same and the unreceived messages are the same; when
    every other row of the sensor is received the status is
    [ALL_RECEIVED]; and a sensor that has this row alone is
    [ALL_RECEIVED] and has no unreceived message. *)
Theorem falsy_payload_is_received (self : crud) (before after : list EventMessage.t)
    (r : EventMessage.t) (n : Z) (at_time : Z) :
  is_None (last_receive r) = false ->
  truthy (last_receive r) = false ->
  last_receive_time r = Some at_time ->
  status self (mkStore (before ++ r :: after) n) = status self (mkStore (before ++ after) n)
  /\ get_unreceived_msgs self (mkStore (before ++ r :: after) n)
     = get_unreceived_msgs self (mkStore (before ++ after) n)
  /\ ((forall x, In x (before ++ after) -> is_sensor self x = true -> unset x = false) ->
      status self (mkStore (before ++ r :: after) n) = ALL_RECEIVED)
  /\ status self (mkStore [r] n) = ALL_RECEIVED
  /\ get_unreceived_msgs self (mkStore [r] n) = [].
Proof.
  intros Hn _ Ht.
  assert (Hu : unset r = false) by (unfold unset; now rewrite Hn, Ht).
  assert (Hr : unreceived r = false) by (unfold unreceived; now rewrite Hn).
  assert (H1 : status self (mkStore (before ++ r :: after) n)
               = status self (mkStore (before ++ after) n)).
  { unfold status, get_sensor_messages. simpl.
    rewrite (filter_app _ before (r :: after)), (filter_app _ before after). simpl.
    destruct (is_sensor self r); [|reflexivity].
    induction (filter (is_sensor self) before) as [|x l IH]; simpl.
    - now rewrite Hu.
    - destruct (unset x); [reflexivity|exact IH]. }
  split; [exact H1|]. split; [|split; [|split]].
  - unfold get_unreceived_msgs, get_sensor_messages. simpl.
    rewrite (filter_app _ before (r :: after)), (filter_app _ before after). simpl.
    destruct (is_sensor self r); [|reflexivity].
    rewrite !filter_app. simpl. now rewrite Hr.
  - intro Hall. rewrite H1. unfold status. apply status_loop_all.
    intros x Hx. apply filter_In in Hx as [Hx Hs]. simpl in Hx. now apply Hall.
  - unfold status, get_sensor_messages. simpl.
    destruct (is_sensor self r); [|reflexivity]. simpl. now rewrite Hu.
  - unfold get_unreceived_msgs, get_sensor_messages. simpl.
    destruct (is_sensor self r); [|reflexivity]. simpl. now rewrite Hr.
Qed.

End Queries.

(** ** Arrival of a wanted message *)

Section Arrival.

Import EventMessage EventMessageCRUD.

Variable self : crud.
Variable now : Z.

Lemma matches_iff (m : json) (r : EventMessage.t) :
  matches self m r = true <-> name r = sensor_name self /\ msg r = m.
Proof.
  unfold matches, is_sensor. rewrite andb_true_iff, String.eqb_eq, sql_eqb_iff.
  reflexivity.
Qed.

Lemma matches_false (m : json) (r : EventMessage.t) :
  matches self m r = false <-> name r <> sensor_name self \/ msg r <> m.
Proof.
  unfold matches, is_sensor. rewrite andb_false_iff, String.eqb_neq, sql_eqb_false.
  reflexivity.
Qed.

Lemma update_on_receive_nth (m p : json) (s : Store) (i : nat) (r : EventMessage.t) :
  nth_error (rows s) i = Some r ->
  nth_error (rows (update_on_receive self now m p s)) i
  = Some (if matches self m r then set_received p now r else r).
Proof.
  intro H. unfold update_on_receive. simpl. now rewrite nth_error_map, H.
Qed.


(** C8, as the code has it. [update_on_receive] has no time argument:
    the receive time it stores in a matched row is the reading [now] of
    the process clock, [TimeUtils().get_now()], taken inside the method,
    and the receive time of every other row is left as it is. The result
    depends on that reading: with a matched row, two readings give two
    tables. *)
Theorem update_on_receive_reads_clock (m p : json) (s : Store) :
  (forall i r, nth_error (rows s) i = Some r ->
     name r = sensor_name self -> msg r = m ->
     exists r', nth_error (rows (update_on_receive self now m p s)) i = Some r'
       /\ last_receive_time r' = Some now)
  /\ (forall i r, nth_error (rows s) i = Some r ->
     name r <> sensor_name self \/ msg r <> m ->
     exists r', nth_error (rows (update_on_receive self now m p s)) i = Some r'
       /\ last_receive_time r' = last_receive_time r)
  /\ (forall other_now r, In r (rows s) ->
     name r = sensor_name self -> msg r = m -> other_now <> now ->
     update_on_receive self other_now m p s <> update_on_receive self now m p s).
Proof.
  split; [|split].
  - intros i r Hi Hs Hm. rewrite (update_on_receive_nth m p s i r Hi).
    rewrite (proj2 (matches_iff m r) (conj Hs Hm)). eexists. split; reflexivity.
  - intros i r Hi Hm. rewrite (update_on_receive_nth m p s i r Hi).
    rewrite (proj2 (matches_false m r) Hm). eexists. split; reflexivity.
  - intros other_now r Hr Hs Hm Hne E.
    apply In_nth_error in Hr as [i Hi].
    assert (E' : nth_error (rows (update_on_receive self other_now m p s)) i
                 = nth_error (rows (update_on_receive self now m p s)) i)
      by now rewrite E.
    unfold update_on_receive in E'. simpl in E'.
    rewrite !nth_error_map, Hi in E'. simpl in E'.
    rewrite (proj2 (matches_iff m r) (conj Hs Hm)) in E'.
    injection E' as E'. apply Hne. exact E'.
Qed.

End Arrival.


(** C8, as stated, fails: with the clock at 14:00 and a caller whose time
    is 13:00, the row of [test_update_on_receive] gets 14:00, which is not
    what [recordArrival] stores for the caller's time. *)
Lemma update_on_receive_ignores_caller_time :
  EventMessage.last_receive_time
    (hd Fixtures.record_other
        (rows (EventMessageCRUD.update_on_receive Fixtures.db Fixtures.t_0615_14h
                 Fixtures.msg_monthly Fixtures.payload1 Fixtures.table_waiting)))
  = Some Fixtures.t_0615_14h
  /\ ~ (forall self clock caller_now m p s,
          EventMessageCRUD.update_on_receive self clock m p s
          = recordArrival (EventMessageCRUD.sensor_name self) m p caller_now s).
Proof.
  split; [reflexivity|]. intro H.
  specialize (H Fixtures.db Fixtures.t_0615_14h Fixtures.t_0615_13h
                Fixtures.msg_monthly Fixtures.payload1 Fixtures.table_waiting).
  vm_compute in H. discriminate.
Qed.

(** ** Expiry *)

Lemma mapM_total {A B : Type} (f : A -> res B) (l : list A) :
  (forall x, In x l -> exists y, f x = OK y) -> exists l', mapM f l = OK l'.
Proof.
  induction l as [|x l IH]; intro H; simpl.
  - eauto.
  - destruct (H x (or_introl eq_refl)) as [y ->].
    destruct IH as [ys ->]; [intros z Hz; apply H; now right|].
    simpl. eauto.
Qed.

(** C6. In [reset_timeout] the rows to reset are chosen by comparing
    their deadline with [base_time] (the caller's time, or the clock when
    the caller gives none), and the new deadline of a chosen row is what
    the plug-in computes for the row's message at its own reading [now]
    of the clock: [base_time] is not passed to it. *)
Theorem reset_timeout_deadline_from_clock
    (plugin_timeout : string -> json -> Z -> res Z)
    (self : EventMessageCRUD.crud) (now : Z) (base_time : option Z) (s s' : Store) :
  EventMessageCRUD.reset_timeout plugin_timeout self now base_time s = OK s' ->
  Forall2 (fun r r' =>
             (EventMessageCRUD.expired self (match base_time with Some b => b | None => now end) r = true ->
              plugin_timeout (EventMessageCRUD.self_source_type self) (EventMessage.msg r) now
              = OK (EventMessage.timeout r'))
             /\ (EventMessageCRUD.expired self (match base_time with Some b => b | None => now end) r = false ->
                 r' = r))
          (rows s) (rows s').
Proof.
  intro H. apply reset_timeout_rows in H as [H _].
  eapply Forall2_impl; [|exact H]. simpl. intros r r' Hr.
  apply reset_record_ok in Hr as [[E ->]|[E (tm & Ht & ->)]]; rewrite E.
  - split; [discriminate|reflexivity].
  - split; [intros _; exact Ht|discriminate].
Qed.

Module CalendarFacts.

Import Calendar.

Lemma days_left_nonneg (fuel : nat) : forall y m n, 0 <= days_left_in_month fuel y m n.
Proof.
  induction fuel as [|fuel IH]; intros y m n; simpl; [lia|].
  destruct (n <? days_in_month y m) eqn:E.
  - apply Z.ltb_lt in E. lia.
  - destruct (m =? 12); apply IH.
Qed.

Lemma end_of_day_bound (now : Z) :
  now <= end_of_day now /\ (now mod seconds_per_day <> seconds_per_day - 1 -> now < end_of_day now).
Proof.
  unfold end_of_day, seconds_per_day.
  pose proof (Z.div_mod now 86400 ltac:(lia)) as H.
  pose proof (Z.mod_pos_bound now 86400 ltac:(lia)) as Hb. lia.
Qed.

Lemma end_of_month_bound (now : Z) :
  now <= end_of_month now /\ (now mod seconds_per_day <> seconds_per_day - 1 -> now < end_of_month now).
Proof.
  pose proof (end_of_day_bound now) as H. unfold end_of_month, end_of_day in *.
  pose proof (days_left_nonneg 4801 1970 1 ((now / seconds_per_day) mod 146097)) as Hk.
  unfold seconds_per_day in *. nia.
Qed.

Lemma timeout_bound (st : string) (m : json) (now d : Z) :
  timeout st m now = OK d ->
  now <= d /\ (now mod seconds_per_day <> seconds_per_day - 1 -> now < d).
Proof.
  unfold timeout. destruct (getitem m "frequency") as [fr|]; simpl; [|discriminate].
  destruct fr; try discriminate.
  destruct (String.eqb s "D"); [intro H; injection H as <-; apply end_of_day_bound|].
  destruct (String.eqb s "M"); [intro H; injection H as <-; apply end_of_month_bound|].
  discriminate.
Qed.

Lemma timeout_total (st : string) (m fr : json) (now : Z) :
  getitem m "frequency" = OK fr -> valid_frequency fr ->
  exists d, timeout st m now = OK d.
Proof.
  intros Hg [-> | ->]; unfold timeout; rewrite Hg; simpl; eauto.
Qed.

Lemma window_arith (x k d : Z) :
  0 <= k -> d = (x / 86400 + k) * 86400 + (86400 - 1) ->
  x <= d /\ (x < d <-> ((x mod 86400 =? 86400 - 1) && (k =? 0)) = false).
Proof.
  intros Hk ->.
  pose proof (Z.div_mod x 86400 ltac:(lia)) as Hd.
  pose proof (Z.mod_pos_bound x 86400 ltac:(lia)) as Hb.
  destruct (Z.eqb_spec (x mod 86400) (86400 - 1)) as [E|E];
    destruct (Z.eqb_spec k 0) as [E'|E']; cbv [andb];
    (split; [lia|]); split; try reflexivity; try discriminate; lia.
Qed.

Lemma timeout_at_bound (off : Z) (st : string) (m : json) (now d : Z) :
  timeout_at off st m now = OK d ->
  now <= d /\ (now < d <-> window_end off m now = false).
Proof.
  unfold timeout_at, window_end, bind.
  destruct (getitem m "frequency") as [fr|]; [|discriminate].
  destruct fr; try discriminate.
  unfold end_of_day_at, end_of_month_at, end_of_day, end_of_month, seconds_per_day.
  pose proof (days_left_nonneg 4801 1970 1 (((now + off) / 86400) mod 146097)) as Hk.
  revert Hk.
  generalize (days_left_in_month 4801 1970 1 (((now + off) / 86400) mod 146097)).
  intros k Hk.
  destruct (String.eqb s "D").
  - intro H. injection H as <-. rewrite orb_true_l.
    destruct (window_arith (now + off) 0
                ((now + off) / 86400 * 86400 + (86400 - 1))) as [H1 H2]; [lia|lia|].
    rewrite Z.eqb_refl in H2. split; [lia|]. rewrite <- H2. lia.
  - destruct (String.eqb s "M"); [|discriminate].
    intro H. injection H as <-. rewrite orb_false_l.
    destruct (window_arith (now + off) k
                (((now + off) / 86400 + k) * 86400 + (86400 - 1)) Hk eq_refl) as [H1 H2].
    split; [lia|]. rewrite <- H2. lia.
Qed.

(** The zone of offset [0] is UTC. *)
Lemma timeout_at_zero (st : string) (m : json) (now : Z) :
  timeout_at 0 st m now = timeout st m now.
Proof.
  unfold timeout_at, timeout, end_of_day_at, end_of_month_at.
  now rewrite Z.add_0_r, !Z.sub_0_r.
Qed.

Lemma timeout_at_total (off : Z) (st : string) (m fr : json) (now : Z) :
  getitem m "frequency" = OK fr -> valid_frequency fr ->
  exists d, timeout_at off st m now = OK d.
Proof.
  intros Hg [-> | ->]; unfold timeout_at; rewrite Hg; unfold bind;
    cbv beta iota; [|]; eexists; reflexivity.
Qed.

End CalendarFacts.

Section ExpiryCalendar.

Import EventMessage EventMessageCRUD.

Variable self : crud.
Variable now : Z.

(** C3, as the plug-ins of the specification allow it. With the calendar
    plug-in of a watcher in any time zone, when the expired rows carry a
    frequency, [reset_timeout] completes; it leaves every row of the
    sensor whose deadline is not before [base_time] as it is, and every
    row of the sensor whose deadline is before [base_time] ends with no
    payload, no receive time and a deadline that is not before the clock
    reading used to compute it; the deadline is strictly after that
    reading exactly when the reading is not the last second of the
    window of the row's pattern (23:59:59 of the day for a daily
    pattern, of the last day of the month for a monthly one), where the
    deadline is the reading itself. *)
Theorem reset_timeout_expiry (utc_offset : Z) (base_time : option Z) (s : Store) :
  (forall r, In r (rows s) ->
     expired self (match base_time with Some b => b | None => now end) r = true ->
     well_formed (msg r)) ->
  exists s',
    reset_timeout (Calendar.timeout_at utc_offset) self now base_time s = OK s'
    /\ Forall2 (fun r r' =>
         (is_sensor self r = true ->
          (match base_time with Some b => b | None => now end) <= timeout r -> r' = r)
         /\ (is_sensor self r = true ->
             timeout r < (match base_time with Some b => b | None => now end) ->
             last_receive r' = JNull /\ last_receive_time r' = None
             /\ id r' = id r /\ name r' = name r /\ msg r' = msg r
             /\ now <= timeout r'
             /\ (now < timeout r' <-> Calendar.window_end utc_offset (msg r) now = false)))
         (rows s) (rows s').
Proof.
  intro Hwf.
  set (b := match base_time with Some b => b | None => now end) in *.
  destruct (mapM_total (reset_record (Calendar.timeout_at utc_offset) self now b) (rows s))
    as [rows' Hm].
  { intros r Hr. unfold reset_record. destruct (expired self b r) eqn:E; [|eauto].
    destruct (Hwf r Hr E) as (fr & Hg & Hv).
    destruct (CalendarFacts.timeout_at_total utc_offset (self_source_type self)
                (msg r) fr now Hg Hv) as [d Hd].
    unfold get_timeout. rewrite Hd. simpl. eauto. }
  exists (mkStore rows' (next_id s)). split.
  - unfold reset_timeout. fold b. now rewrite Hm.
  - simpl. apply mapM_Forall2 in Hm. eapply Forall2_impl; [|exact Hm].
    simpl. intros r r' Hr.
    apply reset_record_ok in Hr as [[E ->]|[E (tm & Ht & ->)]];
      unfold expired in E; split; intros Hs Hcmp; rewrite Hs in E; simpl in E.
    + reflexivity.
    + apply Z.ltb_ge in E. lia.
    + apply Z.ltb_lt in E. lia.
    + unfold get_timeout in Ht. apply CalendarFacts.timeout_at_bound in Ht.
      destruct Ht as [Ht1 Ht2]. simpl. repeat split; try assumption; apply Ht2.
Qed.

End ExpiryCalendar.

(** C3, as stated, fails at the last second of a day: at 23:59:59 of
    2019-06-15 the daily row that expired the day before gets the deadline
    23:59:59 of 2019-06-15, which is the time of the computation and not
    after it. *)
Lemma reset_timeout_at_last_second :
  EventMessageCRUD.reset_timeout Calendar.timeout Fixtures.db
    Fixtures.t_0615_end None Fixtures.table_stale = OK Fixtures.table_reset
  /\ EventMessage.timeout Fixtures.record_stale_reset = Fixtures.t_0615_end
  /\ ~ (forall self now base_time s s',
          EventMessageCRUD.reset_timeout Calendar.timeout self now base_time s = OK s' ->
          Forall2 (fun r r' =>
                     EventMessageCRUD.expired self
                       (match base_time with Some b => b | None => now end) r = true ->
                     now < EventMessage.timeout r')
                  (rows s) (rows s')).
Proof.
  assert (E : EventMessageCRUD.reset_timeout Calendar.timeout Fixtures.db
                Fixtures.t_0615_end None Fixtures.table_stale = OK Fixtures.table_reset)
    by (vm_compute; reflexivity).
  split; [exact E|]. split; [reflexivity|]. intro H.
  specialize (H Fixtures.db Fixtures.t_0615_end None Fixtures.table_stale
                Fixtures.table_reset E).
  inversion H as [|r r' l l' Hr _]; subst.
  assert (Hx : EventMessageCRUD.expired Fixtures.db Fixtures.t_0615_end
                 Fixtures.record_stale = true) by (vm_compute; reflexivity).
  specialize (Hr Hx). vm_compute in Hr. discriminate.
Qed.

(** ** Reconciliation *)

Lemma Forall2_In_r {A B : Type} (R : A -> B -> Prop) (l : list A) (l' : list B) (y : B) :
  Forall2 R l l' -> In y l' -> exists x, In x l /\ R x y.
Proof.
  induction 1 as [|x y' l l' Hxy _ IH]; intros Hin; [contradiction|].
  destruct Hin as [<-|Hin].
  - exists x. split; [now left|exact Hxy].
  - destruct (IH Hin) as (x' & Hx' & HR). exists x'. split; [now right|exact HR].
Qed.

Lemma Forall2_refl_on {A : Type} (R : A -> A -> Prop) (l : list A) :
  (forall x, In x l -> R x x) -> Forall2 R l l.
Proof.
  induction l as [|x l IH]; intro H; constructor.
  - apply H. now left.
  - apply IH. intros y Hy. apply H. now right.
Qed.

Lemma filter_Forall2 {A : Type} (f : A -> bool) (l l' : list A) :
  Forall2 (fun x y => f y = f x /\ (f x = true -> y = x)) l l' ->
  filter f l' = filter f l.
Proof.
  induction 1 as [|x y l l' [Hf Hxy] _ IH]; simpl; [reflexivity|].
  rewrite Hf. destruct (f x); [|exact IH].
  rewrite (Hxy eq_refl). now f_equal.
Qed.

Lemma map_filter_Forall2 {A B : Type} (g : A -> B) (f : A -> bool) (l l' : list A) :
  Forall2 (fun x y => f y = f x /\ g y = g x) l l' ->
  map g (filter f l') = map g (filter f l).
Proof.
  induction 1 as [|x y l l' [Hf Hg] _ IH]; simpl; [reflexivity|].
  rewrite Hf. destruct (f x); [|exact IH].
  simpl. now rewrite Hg, IH.
Qed.

Lemma filter_map_fixed {A : Type} (f : A -> bool) (g : A -> A) (l : list A) :
  (forall x, f (g x) = f x /\ (f x = true -> g x = x)) ->
  filter f (map g l) = filter f l.
Proof.
  intro H. induction l as [|x l IH]; simpl; [reflexivity|].
  destruct (H x) as [Hf Hg]. rewrite Hf. destruct (f x); [|exact IH].
  rewrite (Hg eq_refl). now f_equal.
Qed.

Lemma filter_filter_weaker {A : Type} (f g : A -> bool) (l : list A) :
  (forall x, f x = true -> g x = true) -> filter f (filter g l) = filter f l.
Proof.
  intro H. induction l as [|x l IH]; simpl; [reflexivity|].
  destruct (g x) eqn:Eg; simpl.
  - destruct (f x); now rewrite IH.
  - destruct (f x) eqn:Ef; [|exact IH]. rewrite (H x Ef) in Eg. discriminate.
Qed.

Section Reconciliation.

Import EventMessage EventMessageCRUD.

Variable plugin_timeout : string -> json -> Z -> res Z.
Variable self : crud.
Variable now : Z.

#[local] Abbreviation add_records := (add_records plugin_timeout self now).
#[local] Abbreviation update_msgs := (update_msgs plugin_timeout self now).
#[local] Abbreviation reset_record := (reset_record plugin_timeout self now).
#[local] Abbreviation reset_timeout := (reset_timeout plugin_timeout self now).
#[local] Abbreviation initialize := (initialize plugin_timeout self now).
#[local] Abbreviation is_sensor := (is_sensor self).

Lemma reset_record_is_sensor (base : Z) (r r' : EventMessage.t) :
  reset_record base r = OK r' -> is_sensor r' = is_sensor r.
Proof.
  intro H. apply reset_record_keeps in H as (_ & Hn & _).
  unfold EventMessageCRUD.is_sensor. now rewrite Hn.
Qed.

Lemma add_records_others (msgs : list json) (s s' : Store) :
  add_records msgs s = OK s' -> others self s' = others self s.
Proof.
  intro H. apply add_records_ok in H as (news & Hrows & _ & Hall).
  unfold others. rewrite Hrows, filter_app.
  rewrite (filter_none _ news), app_nil_r; [reflexivity|].
  rewrite Forall_forall in Hall. intros r Hr. destruct (Hall r Hr) as [-> _]. reflexivity.
Qed.

Lemma add_records_sensor_msgs (msgs : list json) (s s' : Store) :
  add_records msgs s = OK s' -> sensor_msgs self s' = sensor_msgs self s ++ msgs.
Proof.
  intro H. apply add_records_ok in H as (news & Hrows & Hmsgs & Hall).
  unfold sensor_msgs, get_sensor_messages.
  rewrite Hrows, filter_app, map_app. f_equal.
  rewrite filter_all; [exact Hmsgs|].
  rewrite Forall_forall in Hall. intros r Hr. now destruct (Hall r Hr).
Qed.

Lemma delete_unwanted_others (msg_list : list json) (s : Store) :
  others self (delete_unwanted self msg_list s) = others self s.
Proof.
  unfold others, delete_unwanted. simpl. apply filter_filter_weaker.
  intros r Hr. apply negb_true_iff in Hr. now rewrite Hr.
Qed.

Lemma delete_unwanted_sensor (msg_list : list json) (s : Store) :
  get_sensor_messages self (delete_unwanted self msg_list s)
  = filter (fun r => sql_in (msg r) msg_list) (get_sensor_messages self s).
Proof.
  unfold get_sensor_messages, delete_unwanted. simpl.
  induction (rows s) as [|r l IH]; simpl; [reflexivity|].
  destruct (EventMessageCRUD.is_sensor self r) eqn:Es; simpl.
  - destruct (sql_in (msg r) msg_list); simpl; [rewrite Es; now f_equal|exact IH].
  - rewrite Es. exact IH.
Qed.

Lemma reset_timeout_others (base : option Z) (s s' : Store) :
  reset_timeout base s = OK s' -> others self s' = others self s.
Proof.
  intro H. apply reset_timeout_rows in H as [H _].
  unfold others. apply filter_Forall2.
  eapply Forall2_impl; [|exact H]. simpl. intros r r' Hr.
  rewrite (reset_record_is_sensor _ _ _ Hr). split; [reflexivity|].
  intro Hs. apply negb_true_iff in Hs.
  apply reset_record_ok in Hr as [[_ ->]|[E _]]; [reflexivity|].
  unfold expired in E. rewrite Hs in E. discriminate.
Qed.

Lemma reset_timeout_sensor_msgs (base : option Z) (s s' : Store) :
  reset_timeout base s = OK s' -> sensor_msgs self s' = sensor_msgs self s.
Proof.
  intro H. apply reset_timeout_rows in H as [H _].
  unfold sensor_msgs, get_sensor_messages. apply map_filter_Forall2.
  eapply Forall2_impl; [|exact H]. simpl. intros r r' Hr. split.
  - exact (reset_record_is_sensor _ _ _ Hr).
  - now apply reset_record_keeps in Hr.
Qed.

(** C10. The methods of a CRUD object that change the table
    ([initialize] with its [update_msgs], [reset_timeout],
    [update_on_receive], [delete]) leave the rows of every other sensor
    as they are, in number, order and content. *)
Theorem other_sensors_untouched :
  (forall msg_list dt s s', initialize msg_list dt s = OK s' -> others self s' = others self s)
  /\ (forall msg_list s s', update_msgs msg_list s = OK s' -> others self s' = others self s)
  /\ (forall base_time s s', reset_timeout base_time s = OK s' -> others self s' = others self s)
  /\ (forall m p s, others self (update_on_receive self now m p s) = others self s)
  /\ (forall s, others self (delete self s) = others self s).
Proof.
  assert (Hu : forall msg_list s s', update_msgs msg_list s = OK s' -> others self s' = others self s).
  { intros msg_list s s' H. unfold EventMessageCRUD.update_msgs in H.
    apply add_records_others in H. rewrite H. apply delete_unwanted_others. }
  split; [|split; [exact Hu|split; [|split]]].
  - intros msg_list dt s s' H. unfold EventMessageCRUD.initialize in H.
    destruct (Nat.ltb 0 _).
    + destruct (update_msgs msg_list s) as [s1|] eqn:E1; simpl in H; [|discriminate].
      apply reset_timeout_others in H. rewrite H. now apply Hu in E1.
    + now apply add_records_others in H.
  - apply reset_timeout_others.
  - intros m p s. unfold others, update_on_receive. simpl.
    apply filter_map_fixed. intros r. unfold matches.
    destruct (EventMessageCRUD.is_sensor self r) eqn:Es; simpl.
    + split; [|discriminate].
      destruct (sql_eqb (msg r) m); [|now rewrite Es].
      unfold EventMessageCRUD.is_sensor in *. simpl. now rewrite Es.
    + rewrite Es. auto.
  - intros s. unfold others, delete. simpl.
    apply filter_filter_weaker. auto.
Qed.

End Reconciliation.

Section Sync.

Import EventMessage EventMessageCRUD.

Variable plugin_timeout : string -> json -> Z -> res Z.
Variable self : crud.
Variable now : Z.

#[local] Abbreviation add_records := (add_records plugin_timeout self now).
#[local] Abbreviation update_msgs := (update_msgs plugin_timeout self now).
#[local] Abbreviation reset_record := (reset_record plugin_timeout self now).
#[local] Abbreviation reset_timeout := (reset_timeout plugin_timeout self now).
#[local] Abbreviation initialize := (initialize plugin_timeout self now).
#[local] Abbreviation is_sensor := (is_sensor self).
#[local] Abbreviation fresh := (fresh plugin_timeout self now).

(** The patterns of the sensor after [update_msgs]: those the database
    kept, then the new ones. *)
Lemma update_msgs_sensor_msgs (msg_list : list json) (s s' : Store) :
  update_msgs msg_list s = OK s' ->
  sensor_msgs self s'
  = filter (fun m => sql_in m msg_list) (sensor_msgs self s)
    ++ filter (fun m => negb (py_in m (filter (fun m => sql_in m msg_list) (sensor_msgs self s))))
              msg_list.
Proof.
  unfold EventMessageCRUD.update_msgs. intro H.
  apply add_records_sensor_msgs in H. rewrite H. clear H.
  assert (E : sensor_msgs self (delete_unwanted self msg_list s)
              = filter (fun m => sql_in m msg_list) (sensor_msgs self s)).
  { unfold sensor_msgs. rewrite delete_unwanted_sensor.
    induction (get_sensor_messages self s) as [|r l IH]; simpl; [reflexivity|].
    destruct (sql_in (msg r) msg_list); simpl; now rewrite IH. }
  unfold sensor_msgs in *. now rewrite E.
Qed.

Lemma update_msgs_within (msg_list : list json) (s s' : Store) (x : json) :
  update_msgs msg_list s = OK s' -> In x (sensor_msgs self s') -> In x msg_list.
Proof.
  intros H Hx. rewrite (update_msgs_sensor_msgs _ _ _ H) in Hx.
  apply in_app_or in Hx as [Hx|Hx]; apply filter_In in Hx as [Hx Hf].
  - now apply sql_in_iff.
  - exact Hx.
Qed.

Lemma update_msgs_covers (msg_list : list json) (s s' : Store) (p : json) :
  update_msgs msg_list s = OK s' -> In p msg_list -> py_in p (sensor_msgs self s') = true.
Proof.
  intros H Hp. rewrite (update_msgs_sensor_msgs _ _ _ H), py_in_app.
  set (kept := filter (fun m => sql_in m msg_list) (sensor_msgs self s)).
  destruct (py_in p kept) eqn:Ek; [reflexivity|]. simpl.
  apply py_in_self. apply filter_In. split; [exact Hp|]. now rewrite Ek.
Qed.

Lemma initialize_within (msg_list : list json) (dt : option Z) (s s' : Store) (x : json) :
  initialize msg_list dt s = OK s' -> In x (sensor_msgs self s') -> In x msg_list.
Proof.
  unfold EventMessageCRUD.initialize. intros H Hx.
  destruct (Nat.ltb 0 (List.length (get_sensor_messages self s))) eqn:Ec.
  - destruct (update_msgs msg_list s) as [s1|] eqn:E1; simpl in H; [|discriminate].
    apply reset_timeout_sensor_msgs in H. rewrite H in Hx.
    now apply (update_msgs_within msg_list s s1).
  - apply add_records_sensor_msgs in H. rewrite H in Hx.
    unfold sensor_msgs at 1 in Hx. unfold get_sensor_messages in Hx.
    rewrite (filter_none _ (rows s)) in Hx; [exact Hx|].
    now apply length_filter_zero.
Qed.

Lemma initialize_covers (msg_list : list json) (dt : option Z) (s s' : Store) (p : json) :
  initialize msg_list dt s = OK s' -> In p msg_list -> py_in p (sensor_msgs self s') = true.
Proof.
  unfold EventMessageCRUD.initialize. intros H Hp.
  destruct (Nat.ltb 0 (List.length (get_sensor_messages self s))) eqn:Ec.
  - destruct (update_msgs msg_list s) as [s1|] eqn:E1; simpl in H; [|discriminate].
    apply reset_timeout_sensor_msgs in H. rewrite H.
    now apply (update_msgs_covers msg_list s s1).
  - apply add_records_sensor_msgs in H. rewrite H.
    apply py_in_self. apply in_or_app. now right.
Qed.


Lemma fresh_reset_fixed (r : EventMessage.t) :
  fresh r -> set_reset (timeout r) r = r.
Proof.
  intros (Hl & Ht & _). destruct r. simpl in *. now subst.
Qed.

Lemma reset_timeout_fixed (base : Z) (s : Store) :
  (forall r, In r (rows s) -> expired self base r = true -> fresh r) ->
  reset_timeout (Some base) s = OK s.
Proof.
  intro H. unfold EventMessageCRUD.reset_timeout.
  assert (E : mapM (reset_record base) (rows s) = OK (rows s)).
  { apply mapM_Forall2. apply Forall2_refl_on. intros r Hr.
    unfold EventMessageCRUD.reset_record.
    destruct (expired self base r) eqn:Ex; [|reflexivity].
    pose proof (H r Hr Ex) as Hf. destruct Hf as (Hl & Ht & Hg).
    rewrite Hg. simpl. f_equal. apply fresh_reset_fixed. repeat split; assumption. }
  rewrite E. simpl. now destruct s.
Qed.

(** After [initialize], every row of the sensor that is still before the
    base time is as [reset_timeout] leaves a row. *)
Lemma initialize_stable (msg_list : list json) (dt : option Z) (s s' : Store) :
  initialize msg_list dt s = OK s' ->
  forall r, In r (rows s') ->
    expired self (match dt with Some d => d | None => now end) r = true -> fresh r.
Proof.
  unfold EventMessageCRUD.initialize. intros H r Hr Hx.
  destruct (Nat.ltb 0 (List.length (get_sensor_messages self s))) eqn:Ec.
  - destruct (update_msgs msg_list s) as [s1|] eqn:E1; simpl in H; [|discriminate].
    apply reset_timeout_rows in H as [H _].
    destruct (Forall2_In_r _ _ _ r H Hr) as (r0 & _ & Hr0).
    apply reset_record_ok in Hr0 as [[E ->]|[_ (tm & Ht & ->)]].
    + rewrite E in Hx. discriminate.
    + unfold EventMessageCRUD.fresh. simpl. auto.
  - apply add_records_ok in H as (news & Hrows & _ & Hall).
    rewrite Hrows in Hr. apply in_app_or in Hr as [Hr|Hr].
    + pose proof (length_filter_zero _ _ Ec r Hr) as Hs.
      unfold expired in Hx. rewrite Hs in Hx. discriminate.
    + rewrite Forall_forall in Hall. now destruct (Hall r Hr).
Qed.

(** C2. When [initialize] has completed, calling it again with the same
    list and the same time, at the same reading of the clock, returns the
    table as it is: the same rows with the same ids, patterns, received
    columns and deadlines. *)
Theorem initialize_idempotent (msg_list : list json) (dt : option Z) (s s' : Store) :
  initialize msg_list dt s = OK s' ->
  initialize msg_list dt s' = OK s'.
Proof.
  intro H.
  pose proof (initialize_stable msg_list dt s s' H) as Hst.
  pose proof (fun x => initialize_within msg_list dt s s' x H) as Hw.
  pose proof (fun p => initialize_covers msg_list dt s s' p H) as Hc.
  clear H. unfold EventMessageCRUD.initialize.
  destruct (Nat.ltb 0 (List.length (get_sensor_messages self s'))) eqn:Ec.
  - assert (Hd : delete_unwanted self msg_list s' = s').
    { unfold delete_unwanted. destruct s' as [rs n]. simpl in *. f_equal.
      apply filter_all. intros r Hr. apply negb_true_iff.
      destruct (EventMessageCRUD.is_sensor self r) eqn:Es; [|reflexivity]. simpl.
      apply negb_false_iff. apply sql_in_iff. apply Hw.
      unfold sensor_msgs, get_sensor_messages. apply in_map. apply filter_In. auto. }
    unfold EventMessageCRUD.update_msgs. rewrite Hd.
    rewrite (filter_none _ msg_list).
    + simpl. now apply reset_timeout_fixed.
    + intros p Hp. apply negb_false_iff. fold (sensor_msgs self s'). now apply Hc.
  - destruct msg_list as [|p l]; [reflexivity|]. exfalso.
    specialize (Hc p (or_introl eq_refl)).
    unfold sensor_msgs, get_sensor_messages in Hc.
    rewrite (filter_none _ (rows s')) in Hc; [discriminate|].
    now apply length_filter_zero.
Qed.

(** [initialize] completes when the source type of the object is of the
    validated set, every pattern of the list carries a validated frequency
    and the plug-in has a deadline for the patterns of the list and for
    those of the rows of the sensor. *)
Lemma add_records_total (msgs : list json) (s : Store) :
  valid_source_type (self_source_type self) ->
  (forall p, In p msgs -> well_formed p /\ exists tm, plugin_timeout (self_source_type self) p now = OK tm) ->
  exists s', add_records msgs s = OK s'.
Proof.
  intros Hs. revert s. induction msgs as [|m msgs IH]; intros s H; simpl; [eauto|].
  destruct (H m (or_introl eq_refl)) as [(fr & Hg & Hv) (tm & Ht)].
  unfold EventMessageCRUD.new_record, get_timeout. rewrite Hg, Ht. simpl.
  unfold init. rewrite (validate_source_type_ok _ Hs). simpl.
  destruct (validate_frequency_ok _ Hv) as (f & _ & ->). simpl.
  apply IH. intros p Hp. apply H. now right.
Qed.

Lemma initialize_total (msg_list : list json) (dt : option Z) (s : Store) :
  valid_source_type (self_source_type self) ->
  (forall p, In p msg_list -> well_formed p /\ exists tm, plugin_timeout (self_source_type self) p now = OK tm) ->
  (forall r, In r (get_sensor_messages self s) ->
     exists tm, plugin_timeout (self_source_type self) (msg r) now = OK tm) ->
  exists s', initialize msg_list dt s = OK s'.
Proof.
  intros Hs Hl Hr. unfold EventMessageCRUD.initialize.
  destruct (Nat.ltb 0 _); [|now apply add_records_total].
  destruct (add_records_total
              (filter (fun m => negb (py_in m (map msg (get_sensor_messages self (delete_unwanted self msg_list s))))) msg_list)
              (delete_unwanted self msg_list s) Hs) as [s1 H1].
  { intros p Hp. apply filter_In in Hp as [Hp _]. now apply Hl. }
  unfold EventMessageCRUD.update_msgs. rewrite H1. simpl.
  unfold EventMessageCRUD.reset_timeout.
  destruct (mapM_total (reset_record (match dt with Some d => d | None => now end)) (rows s1)) as [rows' Hm].
  { intros r Hin. unfold EventMessageCRUD.reset_record.
    destruct (expired self _ r) eqn:Ex; [|eauto].
    assert (Ht : exists tm, get_timeout plugin_timeout self now (msg r) = OK tm).
    { apply add_records_ok in H1 as (news & Hrows & Hmsgs & Hall).
      rewrite Hrows in Hin. apply in_app_or in Hin as [Hin|Hin].
      - apply Hr. unfold delete_unwanted in Hin. simpl in Hin.
        apply filter_In in Hin as [Hin _]. apply filter_In. split; [exact Hin|].
        unfold expired in Ex. now apply andb_true_iff in Ex as [Ex _].
      - rewrite Forall_forall in Hall. destruct (Hall r Hin) as [_ (_ & _ & Hg)]. eauto. }
    destruct Ht as [tm ->]. simpl. eauto. }
  rewrite Hm. simpl. eauto.
Qed.

End Sync.


(** * The theorems on the tables of the test suite *)

Section Witnesses.

Import EventMessage EventMessageCRUD Fixtures.


Lemma initialize_idempotent_witness :
  initialize Calendar.timeout db t_0616 wanted None table_stale = OK table_synced
  /\ initialize Calendar.timeout db t_0616 wanted None table_synced = OK table_synced.
Proof.
  split; [vm_compute; reflexivity|].
  apply (initialize_idempotent Calendar.timeout db t_0616 wanted None table_stale).
  vm_compute. reflexivity.
Defined.

Lemma reset_timeout_expiry_witness :
  exists s',
    reset_timeout (Calendar.timeout_at 28800) db t_0616 None table_stale = OK s'
    /\ Forall2 (fun r r' =>
         (is_sensor db r = true -> t_0616 <= timeout r -> r' = r)
         /\ (is_sensor db r = true -> timeout r < t_0616 ->
             last_receive r' = JNull /\ last_receive_time r' = None
             /\ id r' = id r /\ name r' = name r /\ msg r' = msg r
             /\ t_0616 <= timeout r'
             /\ (t_0616 < timeout r' <-> Calendar.window_end 28800 (msg r) t_0616 = false)))
         (rows table_stale) (rows s').
Proof.
  apply (reset_timeout_expiry db t_0616 28800 None table_stale).
  intros r Hr Hx. simpl in Hr.
  destruct Hr as [<-|[<-|[<-|[]]]]; try (vm_compute in Hx; discriminate).
  exists (JStr "D"). split; [reflexivity|left; reflexivity].
Defined.

Lemma status_iff_none_unreceived_witness :
  (forall r, In r (get_sensor_messages db table_waiting) -> paired r)
  /\ (status db table_waiting = ALL_RECEIVED <-> get_unreceived_msgs db table_waiting = [])
  /\ (get_sensor_messages db table_waiting = [] ->
      status db table_waiting = ALL_RECEIVED /\ get_unreceived_msgs db table_waiting = []).
Proof.
  assert (H : forall r, In r (get_sensor_messages db table_waiting) -> paired r).
  { intros r [<-|[]]. split; reflexivity. }
  split; [exact H|]. exact (status_iff_none_unreceived db table_waiting H).
Defined.


Lemma reset_timeout_deadline_from_clock_witness :
  reset_timeout Calendar.timeout db t_0615_14h (Some t_0616) table_stale = OK table_reset
  /\ Forall2 (fun r r' =>
        (expired db t_0616 r = true ->
         Calendar.timeout "kafka" (msg r) t_0615_14h = OK (timeout r'))
        /\ (expired db t_0616 r = false -> r' = r))
       (rows table_stale) (rows table_reset).
Proof.
  split; [vm_compute; reflexivity|].
  apply (reset_timeout_deadline_from_clock Calendar.timeout db t_0615_14h (Some t_0616)
           table_stale table_reset).
  vm_compute. reflexivity.
Defined.

Lemma validation_at_construction_witness :
  (exists f, JStr "D" = JStr f
     /\ init "test" msg_daily "kafka" (JStr "D") JNull None t_0615_end
        = OK (mk None "test" msg_daily "kafka" f JNull None t_0615_end))
  /\ (exists what, init "test" msg_invalid "kafka" (JStr "not_valid") JNull None t_0615_end
                   = Err (ValueError what))
  /\ (exists e, add_records Calendar.timeout db t_0615 ([msg_daily] ++ msg_invalid :: [msg_monthly])
                  empty_store = Err e).
Proof.
  destruct validation_at_construction as (H1 & H2 & H3).
  split; [|split].
  - apply H1; [right; reflexivity|left; reflexivity].
  - apply H2. right. intros [H|H]; discriminate.
  - apply (H3 Calendar.timeout db t_0615 [msg_daily] msg_invalid [msg_monthly]
              (JStr "not_valid") empty_store); [reflexivity|].
    left. intros [H|H]; discriminate.
Defined.

Lemma update_on_receive_reads_clock_witness :
  (exists r', nth_error (rows (update_on_receive db t_0615_14h msg_monthly payload1 table_waiting)) 0
              = Some r'
     /\ last_receive_time r' = Some t_0615_14h)
  /\ update_on_receive db t_0615_13h msg_monthly payload1 table_waiting
     <> update_on_receive db t_0615_14h msg_monthly payload1 table_waiting.
Proof.
  destruct (update_on_receive_reads_clock db t_0615_14h msg_monthly payload1 table_waiting)
    as (H1 & _ & H3).
  split.
  - apply (H1 0%nat record_waiting); reflexivity.
  - apply (H3 t_0615_13h record_waiting); [left; reflexivity|reflexivity|reflexivity|].
    discriminate.
Defined.

Lemma falsy_payload_is_received_witness :
  truthy (last_receive record_zero) = false
  /\ status db (mkStore ([record_received] ++ record_zero :: []) 3)
     = status db (mkStore ([record_received] ++ []) 3)
  /\ get_unreceived_msgs db (mkStore ([record_received] ++ record_zero :: []) 3)
     = get_unreceived_msgs db (mkStore ([record_received] ++ []) 3)
  /\ ((forall x, In x ([record_received] ++ []) -> is_sensor db x = true -> unset x = false) ->
      status db (mkStore ([record_received] ++ record_zero :: []) 3) = ALL_RECEIVED)
  /\ status db (mkStore [record_zero] 3) = ALL_RECEIVED
  /\ get_unreceived_msgs db (mkStore [record_zero] 3) = [].
Proof.
  split; [reflexivity|].
  apply (falsy_payload_is_received db [record_received] [] record_zero 3 t_0613); reflexivity.
Defined.

Lemma other_sensors_untouched_witness :
  initialize Calendar.timeout db t_0616 wanted None table_stale = OK table_synced
  /\ others db table_synced = others db table_stale.
Proof.
  split; [vm_compute; reflexivity|].
  apply (proj1 (other_sensors_untouched Calendar.timeout db t_0616) wanted None table_stale).
  vm_compute. reflexivity.
Defined.

End Witnesses.

(** * Runs of the test suite *)

(** Two spellings of one pattern are canonically equal, whatever the
    order of their fields. *)
Example msg_eqb_field_order :
  msg_eqb Fixtures.msg_monthly Fixtures.msg_monthly' = true
  /\ msg_eqb Fixtures.msg_monthly Fixtures.msg_daily = false.
Proof. split; vm_compute; reflexivity. Qed.

(** The three comparisons on the two spellings, and on [1] and [True]:
    the database tells the spellings apart, Python does not; Python
    finds [1] and [True] equal, the canonical form does not. *)
Example comparisons :
  sql_eqb Fixtures.msg_monthly Fixtures.msg_monthly' = false
  /\ py_eqb Fixtures.msg_monthly Fixtures.msg_monthly' = true
  /\ py_eqb Fixtures.msg_flag_one Fixtures.msg_flag_true = true
  /\ msg_eqb Fixtures.msg_flag_one Fixtures.msg_flag_true = false.
Proof. repeat split; vm_compute; reflexivity. Qed.

(** At 23:59:59 of 2019-06-15 the window of a daily pattern ends, that
    of a monthly pattern does not: its deadline is the end of June. *)
Example window_end_mid_month :
  Calendar.window_end 0 Fixtures.msg_daily Fixtures.t_0615_end = true
  /\ Calendar.window_end 0 Fixtures.msg_monthly Fixtures.t_0615_end = false
  /\ Calendar.timeout_at 0 "kafka" Fixtures.msg_monthly Fixtures.t_0615_end
     = OK Fixtures.t_0630_end.
Proof. repeat split; vm_compute; reflexivity. Qed.

(** [test_get_timeout]: at 08:00 of 2019-06-05 a daily pattern expires at
    the end of the day and a monthly one at the end of June. *)
Example test_get_timeout :
  EventMessageCRUD.get_timeout Calendar.timeout Fixtures.db 1559721600 Fixtures.msg_daily
  = OK 1559779199
  /\ EventMessageCRUD.get_timeout Calendar.timeout Fixtures.db 1559721600 Fixtures.msg_monthly
     = OK Fixtures.t_0630_end.
Proof. split; vm_compute; reflexivity. Qed.

(** [test_initialize_insert]: two rows in an empty table. *)
Example test_initialize_insert :
  option_map (fun s => List.length (EventMessageCRUD.get_sensor_messages Fixtures.db s))
    (match EventMessageCRUD.initialize Calendar.timeout Fixtures.db Fixtures.t_0615
             [Fixtures.msg_daily; Fixtures.msg_monthly] None empty_store with
     | OK s => Some s
     | Err _ => None
     end) = Some 2%nat.
Proof. vm_compute. reflexivity. Qed.

(** [test_insert_invalid_frequency]: the insertion raises. *)
Example test_insert_invalid_frequency :
  exists e, EventMessageCRUD.initialize Calendar.timeout Fixtures.db Fixtures.t_0615
              [Fixtures.msg_invalid; Fixtures.msg_monthly] None empty_store
            = Err e.
Proof. eexists. vm_compute. reflexivity. Qed.

(** A row with a receive time and no payload is also what
    [update_on_receive] leaves when the received message is [None]. *)
Example arrival_of_None :
  EventMessageCRUD.status Fixtures.db
    (EventMessageCRUD.update_on_receive Fixtures.db Fixtures.t_0615_14h
       Fixtures.msg_monthly JNull (mkStore [Fixtures.record_waiting] 3))
  = NOT_ALL_RECEIVED
  /\ EventMessageCRUD.get_unreceived_msgs Fixtures.db
       (EventMessageCRUD.update_on_receive Fixtures.db Fixtures.t_0615_14h
          Fixtures.msg_monthly JNull (mkStore [Fixtures.record_waiting] 3))
     = [].
Proof. split; vm_compute; reflexivity. Qed.

(** [test_status]: with the payload [0] the status is [ALL_RECEIVED]. *)
Example test_status_zero :
  EventMessageCRUD.status Fixtures.db
    (mkStore [Fixtures.record_received; Fixtures.record_zero] 3) = ALL_RECEIVED.
Proof. reflexivity. Qed.

(** * Further properties of the class *)

Section Teardown.

Import EventMessage EventMessageCRUD.

Variable self : crud.

Lemma delete_no_sensor_rows (s : Store) : get_sensor_messages self (delete self s) = [].
Proof.
  unfold get_sensor_messages, delete. simpl. apply filter_none.
  intros r Hr. apply filter_In in Hr as [_ Hr]. now apply negb_true_iff in Hr.
Qed.

(** X1. After [delete] the sensor has no row: its status is
    [ALL_RECEIVED], nothing is unreceived, nothing is carried over, and a
    second [delete] changes nothing. The counter of the ids is kept. *)
Theorem delete_clears_sensor (s : Store) (received_msgs : list json) :
  get_sensor_messages self (delete self s) = []
  /\ status self (delete self s) = ALL_RECEIVED
  /\ get_unreceived_msgs self (delete self s) = []
  /\ have_successed_msgs self received_msgs (delete self s) = []
  /\ delete self (delete self s) = delete self s
  /\ next_id (delete self s) = next_id s.
Proof.
  pose proof (delete_no_sensor_rows s) as E.
  unfold status, get_unreceived_msgs, have_successed_msgs. rewrite E.
  repeat split; try reflexivity.
  unfold delete. simpl. f_equal.
  apply filter_all. intros r Hr. now apply filter_In in Hr.
Qed.

End Teardown.

Section FirstTime.

Import EventMessage EventMessageCRUD.

Variable plugin_timeout : string -> json -> Z -> res Z.
Variable self : crud.
Variable now : Z.

#[local] Abbreviation new_record := (new_record plugin_timeout self now).
#[local] Abbreviation add_records := (add_records plugin_timeout self now).
#[local] Abbreviation reset_timeout := (reset_timeout plugin_timeout self now).
#[local] Abbreviation initialize := (initialize plugin_timeout self now).

Lemma reset_timeout_no_sensor (base_time : option Z) (s : Store) :
  get_sensor_messages self s = [] -> reset_timeout base_time s = OK s.
Proof.
  intro H. unfold EventMessageCRUD.reset_timeout.
  assert (E : mapM (reset_record plugin_timeout self now
                      (match base_time with Some b => b | None => now end)) (rows s)
              = OK (rows s)).
  { apply mapM_Forall2. apply Forall2_refl_on. intros r Hr.
    unfold reset_record, expired.
    destruct (is_sensor self r) eqn:Es; [|reflexivity].
    assert (Hin : In r (get_sensor_messages self s)) by (apply filter_In; auto).
    rewrite H in Hin. contradiction. }
  rewrite E. simpl. now destruct s.
Qed.

(** X2. With an empty list [initialize] never raises, whatever the
    plug-in and the time: it returns the table without the rows of the
    sensor, as [delete] does. *)
Theorem initialize_empty_list (dt : option Z) (s : Store) :
  initialize [] dt s = OK (delete self s).
Proof.
  unfold EventMessageCRUD.initialize.
  destruct (Nat.ltb 0 (List.length (get_sensor_messages self s))) eqn:Ec.
  - unfold update_msgs. simpl.
    assert (E : delete_unwanted self [] s = delete self s).
    { unfold delete_unwanted, delete. simpl. f_equal. apply filter_ext.
      intro r. now rewrite andb_true_r. }
    rewrite E. apply reset_timeout_no_sensor. apply delete_no_sensor_rows.
  - simpl. unfold delete. destruct s as [rs n]. simpl in *. f_equal. f_equal.
    symmetry. apply filter_all. intros r Hr.
    now rewrite (length_filter_zero _ _ Ec r Hr).
Qed.

(** The row that [new_record] builds. *)
Lemma str_in_frequency (f : string) :
  str_in f available_frequency = true -> valid_frequency (JStr f).
Proof.
  unfold str_in. simpl. rewrite !orb_true_iff.
  intros [E|[E|E]]; [| |discriminate]; apply String.eqb_eq in E; rewrite E;
    [left|right]; reflexivity.
Qed.

Lemma str_in_source_type (st : string) :
  str_in st available_source_type = true -> valid_source_type st.
Proof.
  unfold str_in. simpl. rewrite !orb_true_iff.
  intros [E|[E|E]]; [| |discriminate]; apply String.eqb_eq in E; rewrite E;
    [left|right]; reflexivity.
Qed.

Lemma new_record_columns (m : json) (r : EventMessage.t) :
  new_record m = OK r ->
  id r = None /\ EventMessage.source_type r = self_source_type self /\ row_ok r.
Proof.
  unfold EventMessageCRUD.new_record, init, row_ok. intro H.
  destruct (getitem m "frequency") as [fr|] eqn:Eg; [|discriminate].
  destruct (get_timeout plugin_timeout self now m) as [tm|]; [|discriminate].
  unfold bind in H.
  destruct (validate_source_type (self_source_type self)) as [st|] eqn:Es; [|discriminate].
  destruct (validate_frequency fr) as [f|] eqn:Ef; [|discriminate].
  injection H as <-. simpl.
  unfold validate_source_type in Es.
  destruct (str_in (self_source_type self) available_source_type) eqn:Es'; [|discriminate].
  injection Es as <-.
  unfold validate_frequency in Ef. destruct fr; try discriminate.
  destruct (str_in s available_frequency) eqn:Ef'; [|discriminate].
  injection Ef as <-.
  split; [reflexivity|]. split; [reflexivity|].
  split; [now apply str_in_source_type|]. split; [now apply str_in_frequency|exact Eg].
Qed.

(** X3. For a sensor without rows, [initialize] appends one row per
    element of the list, in the order of the list and without merging
    equal patterns: the patterns of the sensor are the list itself, all of
    them are unreceived, and the status is [NOT_ALL_RECEIVED] unless the
    list is empty. *)
Theorem initialize_first_time (msg_list : list json) (dt : option Z) (s s' : Store) :
  get_sensor_messages self s = [] ->
  initialize msg_list dt s = OK s' ->
  sensor_msgs self s' = msg_list
  /\ get_unreceived_msgs self s' = msg_list
  /\ List.length (get_sensor_messages self s') = List.length msg_list
  /\ (msg_list <> [] -> status self s' = NOT_ALL_RECEIVED)
  /\ next_id s' = next_id s + Z.of_nat (List.length msg_list).
Proof.
  intros He H. unfold EventMessageCRUD.initialize in H. rewrite He in H. simpl in H.
  assert (Hid : forall msgs t t', add_records msgs t = OK t' ->
                                  next_id t' = next_id t + Z.of_nat (List.length msgs)).
  { induction msgs as [|m msgs IH]; intros t t' Ht; simpl in Ht.
    - injection Ht as <-. simpl. lia.
    - destruct (new_record m) as [record|]; simpl in Ht; [|discriminate].
      apply IH in Ht. rewrite Ht. simpl next_id. simpl List.length. lia. }
  pose proof (Hid _ _ _ H) as Hn.
  apply add_records_ok in H as (news & Hrows & Hmsgs & Hall).
  rewrite Forall_forall in Hall.
  assert (Hs : get_sensor_messages self s' = news).
  { unfold get_sensor_messages in *. rewrite Hrows, filter_app, He. simpl.
    apply filter_all. intros r Hr. now destruct (Hall r Hr). }
  assert (Hu : filter unreceived news = news).
  { apply filter_all. intros r Hr. destruct (Hall r Hr) as [_ (Hl & Ht & _)].
    unfold unreceived. now rewrite Hl, Ht. }
  unfold sensor_msgs, get_unreceived_msgs, status. rewrite Hs, Hu.
  split; [exact Hmsgs|]. split; [exact Hmsgs|].
  split; [now rewrite <- Hmsgs, length_map|]. split; [|exact Hn].
  intro Hne. destruct news as [|r news]; [now subst msg_list|].
  simpl. destruct (Hall r (or_introl eq_refl)) as [_ (Hl & _ & _)].
  unfold unset. now rewrite Hl.
Qed.

(** X4. The order of the errors of one insertion: the lookup
    [msg['frequency']] comes first (a pattern that is no dict gives
    [TypeError], a dict without the key [KeyError]), then the plug-in,
    then the validation of the source type, then the validation of the
    frequency. *)
Theorem new_record_error_order (m : json) :
  (forall e, getitem m "frequency" = Err e -> new_record m = Err e)
  /\ (forall fr e, getitem m "frequency" = OK fr ->
        get_timeout plugin_timeout self now m = Err e -> new_record m = Err e)
  /\ (forall fr tm, getitem m "frequency" = OK fr ->
        get_timeout plugin_timeout self now m = OK tm ->
        ~ valid_source_type (self_source_type self) ->
        new_record m = Err (ValueError "source_type"))
  /\ (forall fr tm, getitem m "frequency" = OK fr ->
        get_timeout plugin_timeout self now m = OK tm ->
        valid_source_type (self_source_type self) -> ~ valid_frequency fr ->
        new_record m = Err (ValueError "frequency"))
  /\ (forall fields, m = JObj fields ->
        (forall kv, In kv fields -> fst kv <> "frequency") ->
        new_record m = Err (KeyError "frequency"))
  /\ ((forall fields, m <> JObj fields) -> new_record m = Err TypeError).
Proof.
  unfold EventMessageCRUD.new_record.
  split; [|split; [|split; [|split; [|split]]]].
  - intros e ->. reflexivity.
  - intros fr e -> ->. reflexivity.
  - intros fr tm -> -> Hs. simpl. unfold init.
    now rewrite (validate_source_type_err _ Hs).
  - intros fr tm -> -> Hs Hf. simpl. unfold init.
    rewrite (validate_source_type_ok _ Hs). simpl.
    now rewrite (validate_frequency_err _ Hf).
  - intros fields -> Hk. simpl.
    assert (E : forall acc, fold_left
                  (fun (acc : option json) (kv : string * json) =>
                     if String.eqb (fst kv) "frequency" then Some (snd kv) else acc)
                  fields acc = acc).
    { induction fields as [|kv fields IH]; intro acc; simpl; [reflexivity|].
      destruct (String.eqb (fst kv) "frequency") eqn:E.
      - apply String.eqb_eq in E. exfalso. apply (Hk kv); [now left|exact E].
      - apply IH. intros kv' Hin. apply Hk. now right. }
    now rewrite E.
  - intro Hn. destruct m; try reflexivity. exfalso. now apply (Hn fields).
Qed.

End FirstTime.

Section ArrivalQueries.

Import EventMessage EventMessageCRUD.

Variable self : crud.

Lemma matches_set_received (m' p : json) (t : Z) (r : EventMessage.t) :
  matches self m' (set_received p t r) = matches self m' r.
Proof. reflexivity. Qed.

(** X5. Of two arrivals of one pattern the later one is what the table
    keeps (so an arrival recorded twice is recorded once), and arrivals
    of two different patterns can be recorded in either order. *)
Theorem update_on_receive_last_wins (now1 now2 : Z) (m p1 p2 : json) (s : Store) :
  update_on_receive self now2 m p2 (update_on_receive self now1 m p1 s)
  = update_on_receive self now2 m p2 s
  /\ update_on_receive self now1 m p1 (update_on_receive self now1 m p1 s)
     = update_on_receive self now1 m p1 s
  /\ (forall m', msg_eqb m m' = false ->
      update_on_receive self now2 m' p2 (update_on_receive self now1 m p1 s)
      = update_on_receive self now1 m p1 (update_on_receive self now2 m' p2 s)).
Proof.
  assert (H : forall n1 n2 q1 q2,
             update_on_receive self n2 m q2 (update_on_receive self n1 m q1 s)
             = update_on_receive self n2 m q2 s).
  { intros n1 n2 q1 q2. unfold update_on_receive. simpl. f_equal.
    rewrite map_map. apply map_ext. intro r.
    destruct (matches self m r) eqn:E; [|now rewrite E].
    now rewrite matches_set_received, E. }
  split; [apply H|]. split; [apply H|].
  intros m' Hd. unfold update_on_receive. simpl. f_equal.
  rewrite !map_map. apply map_ext. intro r.
  destruct (matches self m r) eqn:E; destruct (matches self m' r) eqn:E'; cbv iota;
    rewrite ?matches_set_received, ?E, ?E'; try reflexivity.
  exfalso. unfold matches in E, E'.
  apply andb_true_iff in E as [_ E]. apply andb_true_iff in E' as [_ E'].
  apply sql_eqb_iff in E. apply sql_eqb_iff in E'.
  rewrite <- E, <- E', msg_eqb_refl in Hd. discriminate.
Qed.

Lemma filter_map_commute {A : Type} (f : A -> bool) (g : A -> A) (l : list A) :
  (forall x, f (g x) = f x) -> filter f (map g l) = map g (filter f l).
Proof.
  intro H. induction l as [|x l IH]; simpl; [reflexivity|].
  rewrite H. destruct (f x); simpl; now rewrite IH.
Qed.

Lemma sensor_rows_after_arrival (now : Z) (m p : json) (s : Store) :
  get_sensor_messages self (update_on_receive self now m p s)
  = map (fun r => if sql_eqb (msg r) m then set_received p now r else r)
        (get_sensor_messages self s).
Proof.
  unfold get_sensor_messages, update_on_receive. simpl.
  rewrite filter_map_commute.
  - apply map_ext_in. intros r Hr. apply filter_In in Hr as [_ Hr].
    unfold matches. now rewrite Hr.
  - intro r. now destruct (matches self m r).
Qed.

(** X6. After an arrival the unreceived messages are those that were
    unreceived before and are not the wanted message itself (the same
    fields in the same order), in the same order; this does not depend
    on the payload. *)
Theorem unreceived_after_arrival (now : Z) (m p : json) (s : Store) :
  get_unreceived_msgs self (update_on_receive self now m p s)
  = filter (fun x => negb (sql_eqb x m)) (get_unreceived_msgs self s).
Proof.
  unfold get_unreceived_msgs. rewrite sensor_rows_after_arrival.
  induction (get_sensor_messages self s) as [|r l IH]; simpl; [reflexivity|].
  destruct (sql_eqb (msg r) m) eqn:Em.
  - unfold unreceived at 1. simpl. rewrite andb_false_r.
    destruct (unreceived r); simpl; [|exact IH]. rewrite Em. exact IH.
  - destruct (unreceived r); simpl; [|exact IH]. rewrite Em. simpl. now f_equal.
Qed.

(** X7. After the arrival of a payload that is not [None] the status is
    [ALL_RECEIVED] exactly when every row of the sensor that lacked a
    payload or a receive time carries the wanted message itself. After
    the arrival of [None] for a message that has a row the status is
    [NOT_ALL_RECEIVED]. *)
Theorem status_after_arrival (now : Z) (m p : json) (s : Store) :
  (is_None p = false ->
   (status self (update_on_receive self now m p s) = ALL_RECEIVED
    <-> forall r, In r (get_sensor_messages self s) -> unset r = true -> msg r = m))
  /\ (is_None p = true ->
      (exists r, In r (get_sensor_messages self s) /\ msg r = m) ->
      status self (update_on_receive self now m p s) = NOT_ALL_RECEIVED).
Proof.
  unfold status. rewrite sensor_rows_after_arrival. split.
  - intro Hp. rewrite status_loop_all. split.
    + intros H r Hr Hu. destruct (sql_eqb (msg r) m) eqn:Em; [now apply sql_eqb_iff|].
      exfalso. specialize (H r). rewrite Hu in H. assert (true = false); [|discriminate].
      apply H. apply in_map_iff. exists r. now rewrite Em.
    + intros H r' Hr'. apply in_map_iff in Hr' as (r & <- & Hr).
      destruct (sql_eqb (msg r) m) eqn:Em.
      * unfold unset. simpl. now rewrite Hp.
      * destruct (unset r) eqn:Hu; [|reflexivity].
        apply sql_eqb_false in Em. exfalso. apply Em. now apply H.
  - intros Hp (r & Hr & Em). apply sql_eqb_iff in Em.
    destruct (status_loop _) eqn:E; [|reflexivity]. exfalso.
    rewrite status_loop_all in E.
    specialize (E (set_received p now r)).
    assert (Hin : In (set_received p now r)
                    (map (fun r => if sql_eqb (msg r) m then set_received p now r else r)
                         (get_sensor_messages self s))).
    { apply in_map_iff. exists r. now rewrite Em. }
    specialize (E Hin). unfold unset in E. simpl in E. rewrite Hp in E. discriminate.
Qed.

(** X8. [have_successed_msgs] returns exactly the patterns of the rows of
    the sensor whose receive time is set and before their deadline, and
    that are equal for Python's [==] to no received message; the payload
    column is not consulted. A message recorded by [update_on_receive]
    before the deadline of its row is returned while no received message
    equals it. *)
Theorem have_successed_msgs_carry_over (received_msgs : list json) (s : Store) :
  (forall x, In x (have_successed_msgs self received_msgs s)
     <-> (exists r, In r (get_sensor_messages self s) /\ msg r = x
                    /\ exists t, last_receive_time r = Some t /\ t < timeout r)
         /\ py_in x received_msgs = false)
  /\ (forall now p r, In r (rows s) -> is_sensor self r = true ->
        now < timeout r -> py_in (msg r) received_msgs = false ->
        In (msg r) (have_successed_msgs self received_msgs
                      (update_on_receive self now (msg r) p s))).
Proof.
  assert (Hc : forall t x, In x (have_successed_msgs self received_msgs t)
     <-> (exists r, In r (get_sensor_messages self t) /\ msg r = x
                    /\ exists tm, last_receive_time r = Some tm /\ tm < timeout r)
         /\ py_in x received_msgs = false).
  { intros t x. unfold have_successed_msgs. rewrite filter_In, in_map_iff.
    rewrite negb_true_iff. split.
    - intros [(r & Hm & Hr) Hn]. split; [|exact Hn].
      apply filter_In in Hr as [Hr Hs]. exists r. split; [exact Hr|]. split; [exact Hm|].
      destruct (last_receive_time r) as [tm|]; [|discriminate].
      exists tm. split; [reflexivity|]. now apply Z.ltb_lt.
    - intros [(r & Hr & Hm & tm & Ht & Hlt) Hn]. split; [|exact Hn].
      exists r. split; [exact Hm|]. apply filter_In. split; [exact Hr|].
      rewrite Ht. now apply Z.ltb_lt. }
  split; [apply Hc|].
  intros now p r Hr Hs Hlt Hn. apply Hc. split; [|exact Hn].
  exists (set_received p now r). split; [|split; [reflexivity|]].
  - rewrite sensor_rows_after_arrival. apply in_map_iff. exists r.
    rewrite (proj2 (sql_eqb_iff (msg r) (msg r)) eq_refl).
    split; [reflexivity|]. apply filter_In. auto.
  - exists now. simpl. auto.
Qed.

End ArrivalQueries.

Lemma Forall2_In_l {A B : Type} (R : A -> B -> Prop) (l : list A) (l' : list B) (x : A) :
  Forall2 R l l' -> In x l -> exists y, In y l' /\ R x y.
Proof.
  induction 1 as [|x' y l l' Hxy _ IH]; intros Hin; [contradiction|].
  destruct Hin as [<-|Hin].
  - exists y. split; [now left|exact Hxy].
  - destruct (IH Hin) as (y' & Hy' & HR). exists y'. split; [now right|exact HR].
Qed.

Lemma map_filter_Forall2_gen {A B : Type} (g : A -> B) (f1 f2 : A -> bool) (l l' : list A) :
  Forall2 (fun x y => f2 y = f1 x /\ (f1 x = true -> g y = g x)) l l' ->
  map g (filter f2 l') = map g (filter f1 l).
Proof.
  induction 1 as [|x y l l' [Hf Hg] _ IH]; simpl; [reflexivity|].
  rewrite Hf. destruct (f1 x); [|exact IH].
  simpl. now rewrite (Hg eq_refl), IH.
Qed.

Lemma filter_filter_and {A : Type} (f g : A -> bool) (l : list A) :
  filter f (filter g l) = filter (fun x => g x && f x) l.
Proof.
  induction l as [|x l IH]; simpl; [reflexivity|].
  destruct (g x); simpl; [destruct (f x)|]; now rewrite IH.
Qed.

Section ExpiryQueries.

Import EventMessage EventMessageCRUD.

Variable plugin_timeout : string -> json -> Z -> res Z.
Variable self : crud.
Variable now : Z.

#[local] Abbreviation reset_record := (reset_record plugin_timeout self now).
#[local] Abbreviation reset_timeout := (reset_timeout plugin_timeout self now).

(** X9. [reset_timeout] done twice at one reading of the clock, with the
    same base time, is [reset_timeout] done once. *)
Theorem reset_timeout_idempotent (base_time : option Z) (s s' : Store) :
  reset_timeout base_time s = OK s' -> reset_timeout base_time s' = OK s'.
Proof.
  intro H. apply reset_timeout_rows in H as [H _].
  set (b := match base_time with Some b => b | None => now end) in *.
  assert (E : reset_timeout base_time s' = reset_timeout (Some b) s')
    by (destruct base_time; reflexivity).
  rewrite E. apply reset_timeout_fixed. intros r' Hr' Hx.
  destruct (Forall2_In_r _ _ _ r' H Hr') as (r & _ & Hr).
  apply reset_record_ok in Hr as [[Ex ->]|[_ (tm & Ht & ->)]].
  - rewrite Ex in Hx. discriminate.
  - unfold fresh. simpl. auto.
Qed.

(** X10. When the plug-in gives deadlines that are not before its
    reading of the clock, and the base time is not after that reading
    (as when the caller gives none), no row of the sensor is before the
    base time once [reset_timeout] has returned. *)
Theorem reset_timeout_leaves_none_expired (base_time : option Z) (s s' : Store) :
  (forall m d, plugin_timeout (self_source_type self) m now = OK d -> now <= d) ->
  match base_time with Some b => b <= now | None => True end ->
  reset_timeout base_time s = OK s' ->
  forall r, In r (rows s') ->
    expired self (match base_time with Some b => b | None => now end) r = false.
Proof.
  intros Hp Hb H r' Hr'. apply reset_timeout_rows in H as [H _].
  set (b := match base_time with Some b => b | None => now end) in *.
  assert (Hbn : b <= now) by (unfold b; destruct base_time; [exact Hb|lia]).
  destruct (Forall2_In_r _ _ _ r' H Hr') as (r & _ & Hr).
  apply reset_record_ok in Hr as [[Ex ->]|[Ex (tm & Ht & ->)]]; [exact Ex|].
  unfold expired in *. apply andb_true_iff in Ex as [Es _].
  change (is_sensor self (set_reset tm r)) with (is_sensor self r). rewrite Es. simpl.
  apply Z.ltb_ge. apply Hp in Ht. lia.
Qed.

(** X11. After [reset_timeout] the unreceived messages are the patterns
    of the rows of the sensor that were before the base time or were
    unreceived already, in the order of the table; the patterns carried
    over by [have_successed_msgs] are those of the rows that were not
    before the base time; and when a row was before the base time the
    status is [NOT_ALL_RECEIVED]. *)
Theorem queries_after_reset (base_time : option Z) (received_msgs : list json)
    (s s' : Store) :
  reset_timeout base_time s = OK s' ->
  get_unreceived_msgs self s'
  = map msg (filter (fun r => expired self (match base_time with Some b => b | None => now end) r
                              || unreceived r)
                    (get_sensor_messages self s))
  /\ have_successed_msgs self received_msgs s'
     = filter (fun m => negb (py_in m received_msgs))
         (map msg (filter (fun r => negb (expired self (match base_time with Some b => b | None => now end) r)
                                    && successed r)
                          (get_sensor_messages self s)))
  /\ ((exists r, In r (rows s)
                 /\ expired self (match base_time with Some b => b | None => now end) r = true) ->
      status self s' = NOT_ALL_RECEIVED).
Proof.
  intro H. apply reset_timeout_rows in H as [H _].
  set (b := match base_time with Some b => b | None => now end) in *.
  split; [|split].
  - unfold get_unreceived_msgs, get_sensor_messages. rewrite !filter_filter_and.
    apply map_filter_Forall2_gen. eapply Forall2_impl; [|exact H]. simpl.
    intros r r' Hr. pose proof (reset_record_is_sensor _ _ _ _ _ _ Hr) as Hs.
    rewrite Hs.
    apply reset_record_ok in Hr as [[Ex ->]|[Ex (tm & _ & ->)]].
    + rewrite Ex. simpl. auto.
    + rewrite Ex. simpl. unfold expired in Ex. apply andb_true_iff in Ex as [-> _].
      split; reflexivity.
  - unfold have_successed_msgs, get_sensor_messages. f_equal.
    rewrite !filter_filter_and.
    apply map_filter_Forall2_gen. eapply Forall2_impl; [|exact H]. simpl.
    intros r r' Hr. pose proof (reset_record_is_sensor _ _ _ _ _ _ Hr) as Hs.
    rewrite Hs.
    apply reset_record_ok in Hr as [[Ex ->]|[Ex (tm & _ & ->)]].
    + rewrite Ex. simpl. auto.
    + rewrite Ex. simpl. unfold expired in Ex. apply andb_true_iff in Ex as [-> _].
      split; [reflexivity|discriminate].
  - intros (r & Hr & Ex).
    destruct (Forall2_In_l _ _ _ r H Hr) as (r' & Hr' & Hrr).
    apply reset_record_ok in Hrr as [[Ex' _]|[_ (tm & _ & ->)]].
    + rewrite Ex in Ex'. discriminate.
    + destruct (status self s') eqn:E; [|reflexivity]. exfalso.
      unfold status in E. rewrite status_loop_all in E.
      specialize (E (set_reset tm r)).
      assert (Hin : In (set_reset tm r) (get_sensor_messages self s')).
      { apply filter_In. split; [exact Hr'|].
        unfold expired in Ex. now apply andb_true_iff in Ex as [Es _]. }
      specialize (E Hin). discriminate.
Qed.

End ExpiryQueries.

(** ** Invariants of [initialize] *)

Lemma py_in_filter (f : json -> bool) (m : json) (l : list json) :
  py_in m (filter f l) = true -> py_in m l = true.
Proof.
  intro H. apply py_in_iff in H as (p & Hp & Hm). apply filter_In in Hp as [Hp _].
  apply py_in_iff. eauto.
Qed.

Lemma distinct_filter (f : json -> bool) (l : list json) :
  distinct_msgs l = true -> distinct_msgs (filter f l) = true.
Proof.
  induction l as [|m l IH]; simpl; [reflexivity|].
  intro H. apply andb_true_iff in H as [Hm Hl]. destruct (f m); simpl; [|now apply IH].
  rewrite (IH Hl), andb_true_r. apply negb_true_iff. apply negb_true_iff in Hm.
  destruct (py_in m (filter f l)) eqn:E; [|reflexivity].
  apply py_in_filter in E. congruence.
Qed.

Lemma distinct_app (l1 l2 : list json) :
  distinct_msgs l1 = true -> distinct_msgs l2 = true ->
  (forall x, In x l1 -> py_in x l2 = false) ->
  distinct_msgs (l1 ++ l2) = true.
Proof.
  induction l1 as [|m l1 IH]; simpl; intros H1 H2 Hx; [exact H2|].
  apply andb_true_iff in H1 as [Hm Hl]. apply negb_true_iff in Hm.
  rewrite IH; [|exact Hl|exact H2|intros x Hin; apply Hx; now right].
  rewrite andb_true_r. apply negb_true_iff.
  unfold py_in in *. rewrite existsb_app, Hm. simpl. apply Hx. now left.
Qed.

Section InitializeInvariants.

Import EventMessage EventMessageCRUD.

Variable plugin_timeout : string -> json -> Z -> res Z.
Variable self : crud.
Variable now : Z.

#[local] Abbreviation add_records := (add_records plugin_timeout self now).
#[local] Abbreviation update_msgs := (update_msgs plugin_timeout self now).
#[local] Abbreviation reset_timeout := (reset_timeout plugin_timeout self now).
#[local] Abbreviation initialize := (initialize plugin_timeout self now).

(** X12. [initialize] keeps the rows of the sensor whose stored pattern
    is an element of the list (the same fields in the same order) and
    whose deadline is not before the base time exactly as they are, with
    what they have received ([test_initialize_update]). *)
Theorem initialize_keeps_received (msg_list : list json) (dt : option Z)
    (s s' : Store) (r : EventMessage.t) :
  initialize msg_list dt s = OK s' ->
  In r (rows s) -> is_sensor self r = true ->
  In (msg r) msg_list ->
  (match dt with Some d => d | None => now end) <= timeout r ->
  In r (rows s').
Proof.
  intros H Hr Hs Hm Ht. unfold EventMessageCRUD.initialize in H.
  destruct (Nat.ltb 0 (List.length (get_sensor_messages self s))) eqn:Ec.
  - destruct (update_msgs msg_list s) as [s1|] eqn:E1; simpl in H; [|discriminate].
    unfold EventMessageCRUD.update_msgs in E1.
    apply add_records_ok in E1 as (news & Hrows & _ & _).
    assert (Hin : In r (rows s1)).
    { rewrite Hrows. apply in_or_app. left. unfold delete_unwanted. simpl.
      apply filter_In. split; [exact Hr|].
      now rewrite Hs, (proj2 (sql_in_iff (msg r) msg_list) Hm). }
    apply reset_timeout_rows in H as [H _].
    destruct (Forall2_In_l _ _ _ r H Hin) as (r' & Hr' & Hrr).
    apply reset_record_ok in Hrr as [[_ ->]|[Ex _]]; [exact Hr'|].
    unfold expired in Ex. apply andb_true_iff in Ex as [_ Ex].
    apply Z.ltb_lt in Ex. lia.
  - rewrite (length_filter_zero _ _ Ec r Hr) in Hs. discriminate.
Qed.

(** X13. When no two patterns of the list are equal for Python's [==]
    and no two rows of the sensor carry patterns that are, the same
    holds of the rows of the sensor after [initialize]; and likewise
    when "equal" is read as "the same value". *)
Theorem initialize_keeps_distinct (msg_list : list json) (dt : option Z) (s s' : Store) :
  initialize msg_list dt s = OK s' ->
  (distinct_msgs msg_list = true -> distinct_msgs (sensor_msgs self s) = true ->
   distinct_msgs (sensor_msgs self s') = true)
  /\ (NoDup msg_list -> NoDup (sensor_msgs self s) -> NoDup (sensor_msgs self s')).
Proof.
  intros H. unfold EventMessageCRUD.initialize in H.
  destruct (Nat.ltb 0 (List.length (get_sensor_messages self s))) eqn:Ec.
  - destruct (update_msgs msg_list s) as [s1|] eqn:E1; simpl in H; [|discriminate].
    apply reset_timeout_sensor_msgs in H. rewrite H.
    rewrite (update_msgs_sensor_msgs _ _ _ _ _ _ E1).
    set (kept := filter (fun m => sql_in m msg_list) (sensor_msgs self s)).
    assert (Hcross : forall x, In x kept ->
              py_in x (filter (fun m => negb (py_in m kept)) msg_list) = false).
    { intros x Hx.
      destruct (py_in x (filter _ msg_list)) eqn:E; [|reflexivity]. exfalso.
      apply py_in_iff in E as (y & Hy & Hxy).
      apply filter_In in Hy as [_ Hy]. apply negb_true_iff in Hy.
      assert (Hyx : py_in y kept = true).
      { apply py_in_iff. exists x. split; [exact Hx|now apply py_eqb_sym]. }
      congruence. }
    split.
    + intros Hl Hs. apply distinct_app; [now apply distinct_filter|now apply distinct_filter|].
      exact Hcross.
    + intros Hl Hs. apply NoDup_app; [now apply NoDup_filter|now apply NoDup_filter|].
      intros x Hx Hx'. apply py_in_self in Hx'. rewrite (Hcross x Hx) in Hx'. discriminate.
  - apply add_records_sensor_msgs in H. rewrite H.
    assert (E : sensor_msgs self s = []).
    { unfold sensor_msgs, get_sensor_messages.
      rewrite (filter_none _ (rows s)); [reflexivity|].
      now apply length_filter_zero. }
    rewrite E. simpl. auto.
Qed.

Lemma add_records_rows_ok (msgs : list json) (s s' : Store) :
  add_records msgs s = OK s' ->
  exists news, rows s' = rows s ++ news /\ Forall row_ok news.
Proof.
  revert s. induction msgs as [|m msgs IH]; intros s H; simpl in H.
  - injection H as <-. exists []. now rewrite app_nil_r.
  - destruct (new_record plugin_timeout self now m) as [record|] eqn:Er;
      simpl in H; [|discriminate].
    apply new_record_columns in Er as (_ & _ & Hok).
    apply IH in H as (news & Hrows & Hall).
    exists (with_id (next_id s) record :: news). simpl in Hrows.
    rewrite <- app_assoc in Hrows. split; [exact Hrows|].
    constructor; [exact Hok|exact Hall].
Qed.

(** X14. The rows that the class creates have a source type and a
    frequency of the validated sets, and their frequency column is the
    frequency of their pattern; [initialize], [reset_timeout] and
    [update_on_receive] keep this true of every row of the table. *)
Theorem rows_stay_valid :
  (forall msg_list dt s s', Forall row_ok (rows s) ->
     initialize msg_list dt s = OK s' -> Forall row_ok (rows s'))
  /\ (forall base_time s s', Forall row_ok (rows s) ->
     reset_timeout base_time s = OK s' -> Forall row_ok (rows s'))
  /\ (forall m p s, Forall row_ok (rows s) ->
     Forall row_ok (rows (update_on_receive self now m p s)))
  /\ (forall s, Forall row_ok (rows s) -> Forall row_ok (rows (delete self s))).
Proof.
  assert (Hreset : forall base_time s s', Forall row_ok (rows s) ->
     reset_timeout base_time s = OK s' -> Forall row_ok (rows s')).
  { intros base_time s s' Hok H. apply reset_timeout_rows in H as [H _].
    rewrite Forall_forall in *. intros r' Hr'.
    destruct (Forall2_In_r _ _ _ r' H Hr') as (r & Hr & Hrr).
    apply reset_record_ok in Hrr as [[_ ->]|[_ (tm & _ & ->)]]; exact (Hok r Hr). }
  assert (Hfilter : forall (f : EventMessage.t -> bool) l,
             Forall row_ok l -> Forall row_ok (filter f l)).
  { intros f l Hok. rewrite Forall_forall in *. intros r Hr.
    apply filter_In in Hr as [Hr _]. now apply Hok. }
  split; [|split; [exact Hreset|split]].
  - intros msg_list dt s s' Hok H. unfold EventMessageCRUD.initialize in H.
    destruct (Nat.ltb 0 _).
    + destruct (update_msgs msg_list s) as [s1|] eqn:E1; simpl in H; [|discriminate].
      eapply Hreset; [|exact H].
      unfold EventMessageCRUD.update_msgs in E1.
      apply add_records_rows_ok in E1 as (news & -> & Hnews).
      apply Forall_app. split; [|exact Hnews]. now apply Hfilter.
    + apply add_records_rows_ok in H as (news & -> & Hnews).
      apply Forall_app. auto.
  - intros m p s Hok. unfold update_on_receive. simpl.
    rewrite Forall_forall in *. intros r' Hr'. apply in_map_iff in Hr' as (r & <- & Hr).
    destruct (matches self m r); exact (Hok r Hr).
  - intros s Hok. now apply Hfilter.
Qed.

End InitializeInvariants.

(** ** Two sensors in one table *)

Section Isolation.

Import EventMessage EventMessageCRUD.

Variable plugin_timeout : string -> json -> Z -> res Z.
Variable self other : crud.
Variable now : Z.

Hypothesis different : sensor_name self <> sensor_name other.

Lemma sensor_rows_from_others (s : Store) :
  get_sensor_messages self s = filter (is_sensor self) (others other s).
Proof.
  unfold get_sensor_messages, others. symmetry. apply filter_filter_weaker.
  intros r Hr. unfold is_sensor in *. apply String.eqb_eq in Hr.
  apply negb_true_iff. apply String.eqb_neq. congruence.
Qed.

Lemma same_others_same_rows (s s' : Store) :
  others other s' = others other s ->
  get_sensor_messages self s' = get_sensor_messages self s.
Proof. intro H. now rewrite !sensor_rows_from_others, H. Qed.

(** X15. What another sensor's object does to the table ([initialize],
    [update_msgs], [reset_timeout], [update_on_receive], [delete]) leaves
    the rows that this sensor's object reads as they are, and with them
    its status, its unreceived messages and what it carries over. *)
Theorem sensors_isolated :
  (forall msg_list dt s s',
     initialize plugin_timeout other now msg_list dt s = OK s' ->
     get_sensor_messages self s' = get_sensor_messages self s)
  /\ (forall msg_list s s',
     update_msgs plugin_timeout other now msg_list s = OK s' ->
     get_sensor_messages self s' = get_sensor_messages self s)
  /\ (forall base_time s s',
     reset_timeout plugin_timeout other now base_time s = OK s' ->
     get_sensor_messages self s' = get_sensor_messages self s)
  /\ (forall m p s,
     get_sensor_messages self (update_on_receive other now m p s)
     = get_sensor_messages self s)
  /\ (forall s, get_sensor_messages self (delete other s) = get_sensor_messages self s)
  /\ (forall s s', get_sensor_messages self s' = get_sensor_messages self s ->
        status self s' = status self s
        /\ get_unreceived_msgs self s' = get_unreceived_msgs self s
        /\ forall received_msgs,
             have_successed_msgs self received_msgs s'
             = have_successed_msgs self received_msgs s).
Proof.
  assert (Hu : forall msg_list s s',
     update_msgs plugin_timeout other now msg_list s = OK s' ->
     others other s' = others other s).
  { intros msg_list s s' H. unfold update_msgs in H.
    apply add_records_others in H. rewrite H. apply delete_unwanted_others. }
  split; [|split; [|split; [|split; [|split]]]].
  - intros msg_list dt s s' H. apply same_others_same_rows.
    unfold initialize in H. destruct (Nat.ltb 0 _).
    + destruct (update_msgs plugin_timeout other now msg_list s) as [s1|] eqn:E1;
        simpl in H; [|discriminate].
      apply reset_timeout_others in H. rewrite H. now apply Hu in E1.
    + now apply add_records_others in H.
  - intros msg_list s s' H. apply same_others_same_rows. now apply Hu in H.
  - intros base_time s s' H. apply same_others_same_rows.
    now apply reset_timeout_others in H.
  - intros m p s. unfold get_sensor_messages, update_on_receive. simpl.
    apply filter_map_fixed. intro r. unfold matches.
    destruct (is_sensor other r) eqn:Eo; simpl; [|auto].
    assert (Hs : is_sensor self r = false).
    { unfold is_sensor in *. apply String.eqb_eq in Eo. apply String.eqb_neq. congruence. }
    destruct (sql_eqb (msg r) m); [|auto].
    change (is_sensor self (set_received p now r)) with (is_sensor self r).
    rewrite Hs. split; [reflexivity|discriminate].
  - intros s. unfold get_sensor_messages, delete. simpl. apply filter_filter_weaker.
    intros r Hr. unfold is_sensor in *. apply String.eqb_eq in Hr.
    apply negb_true_iff. apply String.eqb_neq. congruence.
  - intros s s' H. unfold status, get_unreceived_msgs, have_successed_msgs.
    now rewrite H.
Qed.

End Isolation.

(** ** The cells of [tabulate_data] *)

Lemma length_substring_0 (n : nat) (s : string) :
  String.length (substring 0 n s) = Nat.min n (String.length s).
Proof.
  revert n. induction s as [|c s IH]; intros [|n]; simpl; try reflexivity.
  now rewrite IH.
Qed.

Lemma length_append (a b : string) :
  String.length (String.append a b) = (String.length a + String.length b)%nat.
Proof. induction a as [|c a IH]; simpl; [reflexivity|now rewrite IH]. Qed.

Section Cells.

Import EventMessage EventMessageCRUD Tabulate.

Lemma cell_length_bound (t : Z) (str_val : string) :
  0 < t -> Z.of_nat (String.length (cell (Some t) str_val)) <= t + 3.
Proof.
  intro Ht. unfold cell. destruct (t =? 0) eqn:E0; [apply Z.eqb_eq in E0; lia|].
  destruct (Z.of_nat (String.length str_val) <=? t) eqn:El; [apply Z.leb_le in El; lia|].
  unfold slice_to. destruct (0 <=? t) eqn:Ep; [|apply Z.leb_gt in Ep; lia].
  rewrite length_append, length_substring_0. simpl String.length. lia.
Qed.

(** X16. A cell is the printed value itself when there is no threshold,
    when the threshold is [0], and when the value is not longer than a
    positive threshold; a longer value is cut to [threshold] characters
    followed by three dots. A negative threshold cuts that many
    characters off the end and the dots are added to every value, also to
    one that is empty. *)
Theorem cell_threshold (str_val : string) :
  cell None str_val = str_val
  /\ cell (Some 0) str_val = str_val
  /\ (forall t, 0 < t ->
        (Z.of_nat (String.length str_val) <= t -> cell (Some t) str_val = str_val)
        /\ (t < Z.of_nat (String.length str_val) ->
            cell (Some t) str_val
            = String.append (substring 0 (Z.to_nat t) str_val) "..."
            /\ Z.of_nat (String.length (cell (Some t) str_val)) = t + 3)
        /\ Z.of_nat (String.length (cell (Some t) str_val)) <= t + 3)
  /\ (forall t, t < 0 ->
        cell (Some t) str_val
        = String.append (substring 0 (String.length str_val - Z.to_nat (- t)) str_val) "..."
        /\ Z.of_nat (String.length (cell (Some t) str_val))
           = Z.max (Z.of_nat (String.length str_val) + t) 0 + 3).
Proof.
  split; [reflexivity|]. split; [reflexivity|]. split.
  - intros t Ht. unfold cell. destruct (t =? 0) eqn:E0; [apply Z.eqb_eq in E0; lia|].
    destruct (Z.of_nat (String.length str_val) <=? t) eqn:El.
    + apply Z.leb_le in El. split; [reflexivity|]. split; [lia|lia].
    + apply Z.leb_gt in El. unfold slice_to.
      destruct (0 <=? t) eqn:Ep; [|apply Z.leb_gt in Ep; lia].
      assert (Hlen : Z.of_nat (String.length
                       (String.append (substring 0 (Z.to_nat t) str_val) "...")) = t + 3).
      { rewrite length_append, length_substring_0. simpl String.length. lia. }
      split; [lia|]. split; [auto|lia].
  - intros t Ht. unfold cell. destruct (t =? 0) eqn:E0; [apply Z.eqb_eq in E0; lia|].
    destruct (Z.of_nat (String.length str_val) <=? t) eqn:El; [apply Z.leb_le in El; lia|].
    unfold slice_to. destruct (0 <=? t) eqn:Ep; [apply Z.leb_le in Ep; lia|].
    split; [reflexivity|].
    rewrite length_append, length_substring_0. simpl String.length. lia.
Qed.

Variable str_attr : EventMessage.t -> string -> string.

(** X17. The list given to [tabulate] has one line per row of the sensor,
    in the order of the table, and every line has the eight cells of the
    eight columns; with a positive threshold no cell is longer than the
    threshold plus three, and without a threshold (or with [0]) the cells
    are the printed values. *)
Theorem data_shape (self : crud) (threshold : option Z) (s : Store) :
  List.length (data str_attr self threshold s)
  = List.length (get_sensor_messages self s)
  /\ (forall line, In line (data str_attr self threshold s) -> List.length line = 8%nat)
  /\ (forall t, threshold = Some t -> 0 < t ->
        forall line c, In line (data str_attr self threshold s) -> In c line ->
                       Z.of_nat (String.length c) <= t + 3)
  /\ (threshold = None \/ threshold = Some 0 ->
      data str_attr self threshold s
      = map (fun r => map (str_attr r) headers) (get_sensor_messages self s)).
Proof.
  unfold data. split; [apply length_map|]. split; [|split].
  - intros line Hl. apply in_map_iff in Hl as (r & <- & _). reflexivity.
  - intros t -> Ht line c Hl Hc. apply in_map_iff in Hl as (r & <- & _).
    apply in_map_iff in Hc as (col & <- & _).
    now apply cell_length_bound.
  - intros [-> | ->]; reflexivity.
Qed.

End Cells.

(** * The further properties on the tables of the test suite *)

Section MoreWitnesses.

Import EventMessage EventMessageCRUD Fixtures.

Lemma fixtures_rows_ok : Forall row_ok (rows table_stale).
Proof.
  unfold table_stale. simpl.
  repeat apply Forall_cons; try apply Forall_nil; unfold row_ok; simpl;
    (split; [right; reflexivity|split; [|reflexivity]]);
    ((left; reflexivity) || (right; reflexivity)).
Qed.

Lemma initialize_first_time_witness :
  exists s',
    initialize Calendar.timeout db t_0615 [msg_daily; msg_monthly] None empty_store = OK s'
    /\ sensor_msgs db s' = [msg_daily; msg_monthly]
    /\ get_unreceived_msgs db s' = [msg_daily; msg_monthly]
    /\ List.length (get_sensor_messages db s') = 2%nat
    /\ ([msg_daily; msg_monthly] <> [] -> status db s' = NOT_ALL_RECEIVED)
    /\ next_id s' = 1 + Z.of_nat 2.
Proof.
  eexists. split; [vm_compute; reflexivity|].
  apply (initialize_first_time Calendar.timeout db t_0615 [msg_daily; msg_monthly]
           None empty_store); [reflexivity|vm_compute; reflexivity].
Defined.

Lemma new_record_error_order_witness :
  new_record Calendar.timeout db t_0615 (JObj [("topic", JStr "etl-finish")])
  = Err (KeyError "frequency")
  /\ new_record Calendar.timeout db t_0615 (JStr "n") = Err TypeError
  /\ new_record Calendar.timeout (mkCrud "not_available_source" "test") t_0615 msg_daily
     = Err (ValueError "source_type").
Proof.
  split; [|split].
  - apply (proj1 (proj2 (proj2 (proj2 (proj2
             (new_record_error_order Calendar.timeout db t_0615
                (JObj [("topic", JStr "etl-finish")]))))))
           [("topic", JStr "etl-finish")] eq_refl).
    intros kv [<-|[]]. discriminate.
  - apply (proj2 (proj2 (proj2 (proj2 (proj2
             (new_record_error_order Calendar.timeout db t_0615 (JStr "n"))))))).
    intros fields. discriminate.
  - apply (proj1 (proj2 (proj2
             (new_record_error_order Calendar.timeout
                (mkCrud "not_available_source" "test") t_0615 msg_daily)))
           (JStr "D") t_0615_end); [reflexivity|vm_compute; reflexivity|].
    intros [H|H]; discriminate.
Defined.

Lemma update_on_receive_last_wins_witness :
  msg_eqb msg_daily msg_monthly = false
  /\ update_on_receive db t_0615_14h msg_monthly payload1
       (update_on_receive db t_0615_13h msg_daily payload1 table_half)
     = update_on_receive db t_0615_13h msg_daily payload1
         (update_on_receive db t_0615_14h msg_monthly payload1 table_half).
Proof.
  assert (H : msg_eqb msg_daily msg_monthly = false) by (vm_compute; reflexivity).
  split; [exact H|].
  exact (proj2 (proj2 (update_on_receive_last_wins db t_0615_13h t_0615_14h
                         msg_daily payload1 payload1 table_half)) msg_monthly H).
Defined.

Lemma status_after_arrival_witness :
  status db (update_on_receive db t_0615_14h msg_monthly payload1 table_half) = ALL_RECEIVED
  <-> (forall r, In r (get_sensor_messages db table_half) -> unset r = true ->
                 msg r = msg_monthly).
Proof.
  apply (proj1 (status_after_arrival db t_0615_14h msg_monthly payload1 table_half)).
  reflexivity.
Defined.

Lemma have_successed_msgs_carry_over_witness :
  In (msg record_waiting)
     (have_successed_msgs db [msg_daily]
        (update_on_receive db t_0615_14h (msg record_waiting) payload1 table_waiting)).
Proof.
  apply (proj2 (have_successed_msgs_carry_over db [msg_daily] table_waiting)
               t_0615_14h payload1 record_waiting).
  - left. reflexivity.
  - reflexivity.
  - vm_compute. reflexivity.
  - vm_compute. reflexivity.
Defined.

Lemma reset_timeout_idempotent_witness :
  reset_timeout Calendar.timeout db t_0615_14h (Some t_0616) table_stale = OK table_reset
  /\ reset_timeout Calendar.timeout db t_0615_14h (Some t_0616) table_reset = OK table_reset.
Proof.
  assert (H : reset_timeout Calendar.timeout db t_0615_14h (Some t_0616) table_stale
              = OK table_reset) by (vm_compute; reflexivity).
  split; [exact H|].
  exact (reset_timeout_idempotent Calendar.timeout db t_0615_14h (Some t_0616)
           table_stale table_reset H).
Defined.

Lemma reset_timeout_leaves_none_expired_witness :
  reset_timeout Calendar.timeout db t_0615_14h None table_stale = OK table_reset
  /\ forall r, In r (rows table_reset) -> expired db t_0615_14h r = false.
Proof.
  assert (H : reset_timeout Calendar.timeout db t_0615_14h None table_stale
              = OK table_reset) by (vm_compute; reflexivity).
  split; [exact H|].
  apply (reset_timeout_leaves_none_expired Calendar.timeout db t_0615_14h None
           table_stale table_reset); [|exact I|exact H].
  intros m d Hd. now apply CalendarFacts.timeout_bound in Hd.
Defined.

Lemma queries_after_reset_witness :
  get_unreceived_msgs db table_reset = [msg_daily]
  /\ have_successed_msgs db [] table_reset = [msg_monthly]
  /\ status db table_reset = NOT_ALL_RECEIVED.
Proof.
  destruct (queries_after_reset Calendar.timeout db t_0615_14h (Some t_0616) []
              table_stale table_reset) as (H1 & H2 & H3); [vm_compute; reflexivity|].
  split; [rewrite H1; vm_compute; reflexivity|].
  split; [rewrite H2; vm_compute; reflexivity|].
  apply H3. exists record_stale. split; [left; reflexivity|vm_compute; reflexivity].
Defined.

Lemma initialize_keeps_received_witness :
  In record_zero (rows table_kept).
Proof.
  apply (initialize_keeps_received Calendar.timeout db t_0616 wanted_same None
           table_stale table_kept record_zero).
  - vm_compute. reflexivity.
  - right. left. reflexivity.
  - reflexivity.
  - left. reflexivity.
  - vm_compute. discriminate.
Defined.

Lemma initialize_keeps_distinct_witness :
  distinct_msgs (sensor_msgs db table_synced) = true.
Proof.
  apply (proj1 (initialize_keeps_distinct Calendar.timeout db t_0616 wanted None
                  table_stale table_synced ltac:(vm_compute; reflexivity)));
    vm_compute; reflexivity.
Defined.

Lemma rows_stay_valid_witness :
  Forall row_ok (rows table_synced).
Proof.
  apply (proj1 (rows_stay_valid Calendar.timeout db t_0616) wanted None table_stale).
  - exact fixtures_rows_ok.
  - vm_compute. reflexivity.
Defined.

Lemma sensors_isolated_witness :
  get_sensor_messages other_db table_synced = get_sensor_messages other_db table_stale
  /\ get_sensor_messages other_db (delete db table_stale)
     = get_sensor_messages other_db table_stale.
Proof.
  assert (D : sensor_name other_db <> sensor_name db) by discriminate.
  destruct (sensors_isolated Calendar.timeout other_db db t_0616 D)
    as (H1 & _ & _ & _ & H5 & _).
  split; [|apply H5].
  apply (H1 wanted None table_stale). vm_compute. reflexivity.
Defined.

Lemma cell_threshold_witness :
  Tabulate.cell (Some 10) "2019-06-15 23:59:59+00:00" = String.append "2019-06-15" "..."
  /\ Z.of_nat (String.length (Tabulate.cell (Some 10) "2019-06-15 23:59:59+00:00")) = 10 + 3.
Proof.
  apply (proj1 (proj2 (proj1 (proj2 (proj2 (cell_threshold "2019-06-15 23:59:59+00:00")))
                                10 ltac:(lia)))).
  vm_compute. reflexivity.
Defined.

Lemma data_shape_witness :
  Some 4 = Some 4 /\ 0 < 4
  /\ forall line c,
       In line (Tabulate.data (fun r col => String.append col (name r)) db (Some 4) table_stale) ->
       In c line -> Z.of_nat (String.length c) <= 4 + 3.
Proof.
  split; [reflexivity|]. split; [lia|].
  apply (proj1 (proj2 (proj2 (data_shape (fun r col => String.append col (name r))
                                db (Some 4) table_stale))) 4 eq_refl).
  lia.
Defined.

End MoreWitnesses.
